(** * cprior: conjugate-prior models and A/B comparison

    A shallow embedding of [cprior/binomial.py] and
    [cprior/cdist/normal_inverse_gamma.py].

    Numbers.  In the normal-inverse-gamma module Python floats are
    idealised as exact rationals ([Qc], canonical fractions, so that equal
    numbers are equal terms): rounding is not modelled there, the
    [OverflowError] of [**] is.  The non-numeric floats the code can
    produce, [np.nan] and the infinities, are kept apart in [pyfloat].
    In the binomial module, whose update mixes Python integers with
    numpy's [int64] and [float64] scalars, integers wrap modulo [2^64] as
    numpy's do and floats are IEEE binary64 values, rounded to nearest
    even ([spec_float] at precision 53).

    Exceptions.  A Python call either returns or raises: [result A] is
    [exn + A].  The comparison methods also draw from the random
    generator, so they live in a state-and-error monad [M] over a [world].

    Names.  The names a function binds itself (parameters and assignment
    targets) are Rocq binders.  Every other name in a body is free: at run
    time it is looked up in the module globals, then in the builtins, and
    raises [NameError] when bound in neither; such names go through
    [load_global]. *)

From Stdlib Require Import ZArith QArith Qcanon List String Lia Lqa.
From Stdlib Require Import SpecFloat.
From stdpp Require Import base option list strings gmap.

Local Open Scope Qc_scope.

(** ** Exceptions and the error monad *)

Inductive exn : Type :=
| NameError (name : string)
| ValueError (msg : string)
| TypeError (msg : string)
| ZeroDivisionError
| OverflowError
| UnsupportedConfiguration
| InvalidInput
| InvalidParameter.

Definition result (A : Type) : Type := exn + A.

Definition Ok {A : Type} (a : A) : result A := inr a.
Definition Raise {A : Type} (e : exn) : result A := inl e.

#[global] Instance result_ret : MRet result := fun _ a => inr a.

#[global] Instance result_bind : MBind result := fun _ _ k c =>
  match c with
  | inl e => inl e
  | inr a => k a
  end.

Definition raises {A : Type} (c : result A) : Prop := exists e, c = inl e.

(** ** Numbers *)

(** A float as the code can return it: a number, an infinity (what
    numpy's division gives on a zero divisor) or [np.nan]. *)
Inductive pyfloat : Type :=
| Fin (x : Qc)
| PInf
| NInf
| NaN.

Definition Qc_of_Z (z : Z) : Qc := Q2Qc (inject_Z z).
Definition Qc_of_nat (n : nat) : Qc := Qc_of_Z (Z.of_nat n).

Definition Qc_ltb (x y : Qc) : bool := bool_decide (x < y).
Definition Qc_leb (x y : Qc) : bool := bool_decide (x <= y).
Definition Qc_eqb (x y : Qc) : bool := bool_decide (x = y).

(** Python's [/] on numbers raises on a zero divisor. *)
Definition py_div (x y : Qc) : result Qc :=
  if Qc_eqb y 0 then Raise ZeroDivisionError else Ok (x / y).

(** [x ** 2] on numpy arrays: elementwise, never raising. *)
Definition py_sq (x : Qc) : Qc := x * x.

(** [x ** 2] on a Python float raises [OverflowError] when the square
    leaves the binary64 range, that is from [2^1024 - 2^970] on (the
    values that round to infinity). *)
Definition float_overflow_bound : Z := 2 ^ 1024 - 2 ^ 970.

Definition py_pow2 (x : Qc) : result Qc :=
  if Qc_leb (Qc_of_Z float_overflow_bound) (x * x)
  then Raise OverflowError
  else Ok (x * x).

(** numpy's [/] on float64 scalars does not raise. *)
Definition np_true_divide (x y : Qc) : pyfloat :=
  if Qc_eqb y 0 then
    if Qc_eqb x 0 then NaN else if Qc_ltb 0 x then PInf else NInf
  else Fin (x / y).

Definition Qc_sum (xs : list Qc) : Qc := foldr Qcplus 0 xs.

(** [a.mean()] on a float array; the mean of an empty array is [nan]. *)
Definition np_mean (xs : list Qc) : pyfloat :=
  match xs with
  | [] => NaN
  | _ => Fin (Qc_sum xs / Qc_of_nat (length xs))
  end.

(** [a.mean()] on a boolean array: [True] counts 1 and [False] 0. *)
Definition np_mean_bool (bs : list bool) : pyfloat :=
  np_mean ((fun b : bool => if b then 1 else 0) <$> bs).

(** Elementwise operations on arrays of one length, and against a
    scalar. *)
Definition np_sub (xs ys : list Qc) : list Qc := zip_with Qcminus xs ys.
Definition np_add_scalar (xs : list Qc) (c : Qc) : list Qc :=
  (fun x => x + c) <$> xs.
Definition np_sub_scalar (xs : list Qc) (c : Qc) : list Qc :=
  (fun x => x - c) <$> xs.
Definition np_div_scalar (xs : list Qc) (c : Qc) : list Qc :=
  (fun x => x / c) <$> xs.
Definition np_gt (xs ys : list Qc) : list bool :=
  zip_with (fun x y => Qc_ltb y x) xs ys.
Definition np_maximum_scalar (xs : list Qc) (c : Qc) : list Qc :=
  (fun x => if Qc_ltb x c then c else x) <$> xs.

(** ** Python integers and numpy scalars *)

(** numpy's [int64]: the integers from [-2^63] to [2^63 - 1]; its
    arithmetic wraps around modulo [2^64]. *)
Definition int64_min : Z := - 2 ^ 63.
Definition int64_max : Z := 2 ^ 63 - 1.

Definition in_int64 (z : Z) : bool :=
  (int64_min <=? z)%Z && (z <=? int64_max)%Z.

Definition wrap64 (z : Z) : Z := ((z + 2 ^ 63) mod 2 ^ 64 - 2 ^ 63)%Z.

(** binary64 floats with IEEE addition and subtraction. *)
Definition float64 : Type := spec_float.

Definition float64_add : float64 -> float64 -> float64 := SFadd 53 1024.
Definition float64_sub : float64 -> float64 -> float64 := SFsub 53 1024.
Definition float64_div : float64 -> float64 -> float64 := SFdiv 53 1024.

(** The float nearest to an integer (ties to even); infinite from
    [2^1024 - 2^970] on. *)
Definition float64_of_Z (z : Z) : float64 :=
  binary_normalize 53 1024 z 0 false.

Definition float64_zero : float64 := S754_zero false.

(** A number held by the binomial model: an integer (a Python [int], or
    an [int64] when it lies in that range) or a float ([float] or
    [float64]). *)
Inductive pynumber : Type :=
| IntV (z : Z)
| FloatV (f : float64).

(** A Python [int] meeting a numpy scalar is first converted to the
    scalar's type: to [int64], which raises [OverflowError] outside the
    range; to [float64], which raises it when the integer is too large for
    a float. *)
Definition int_to_int64 (z : Z) : result Z :=
  if in_int64 z then Ok z else Raise OverflowError.

Definition int_to_float64 (z : Z) : result float64 :=
  if (Z.abs z <? float_overflow_bound)%Z
  then Ok (float64_of_Z z) else Raise OverflowError.

(** [x + y] and [x - y] where [y] is a numpy scalar ([int64] or
    [float64]) and [x] a Python number or a numpy scalar.  Two integers
    give an [int64], wrapping around; a float on either side gives a
    [float64], an [int64] being converted to the nearest float. *)
Definition np_scalar_add (x y : pynumber) : result pynumber :=
  match x, y with
  | IntV a, IntV b => a' ← int_to_int64 a; Ok (IntV (wrap64 (a' + b)))
  | IntV a, FloatV g => f ← int_to_float64 a; Ok (FloatV (float64_add f g))
  | FloatV f, IntV b => Ok (FloatV (float64_add f (float64_of_Z b)))
  | FloatV f, FloatV g => Ok (FloatV (float64_add f g))
  end.

Definition np_scalar_sub (x y : pynumber) : result pynumber :=
  match x, y with
  | IntV a, IntV b => a' ← int_to_int64 a; Ok (IntV (wrap64 (a' - b)))
  | IntV a, FloatV g => f ← int_to_float64 a; Ok (FloatV (float64_sub f g))
  | FloatV f, IntV b => Ok (FloatV (float64_sub f (float64_of_Z b)))
  | FloatV f, FloatV g => Ok (FloatV (float64_sub f g))
  end.

(** ** Name resolution *)

Inductive pyobj : Type :=
| PyFloat (x : Qc)
| PyInt (z : Z)
| PyStr (s : string)
| PyArray (xs : list Qc)
| PyNone
| PyRef (qualname : string).   (* a module, class, function or instance *)

(** A name a function neither takes as a parameter nor assigns is free in
    its body: it is looked up in the module globals, then in the builtins
    (the names the function binds itself are local and are written as
    binders below). *)
Definition load_global (globals builtins : gmap string pyobj)
    (x : string) : result pyobj :=
  match globals !! x with
  | Some v => Ok v
  | None =>
    match builtins !! x with
    | Some v => Ok v
    | None => Raise (NameError x)
    end
  end.

Definition as_float (o : pyobj) : result Qc :=
  match o with
  | PyFloat x => Ok x
  | PyInt z => Ok (Qc_of_Z z)
  | _ => Raise (TypeError "unsupported operand type(s)")
  end.

(** [np.asarray] *)
Definition as_array (o : pyobj) : result (list Qc) :=
  match o with
  | PyArray xs => Ok xs
  | PyFloat x => Ok [x]
  | PyInt z => Ok [Qc_of_Z z]
  | _ => Raise (TypeError "could not convert to an array of floats")
  end.

(** The [shape] of [np.asarray(o)]: [()] for a scalar, [(n,)] for a
    one-dimensional array of [n] entries. *)
Definition np_shape (o : pyobj) : list nat :=
  match o with
  | PyArray xs => [length xs]
  | _ => []
  end.

Definition bind_names (names : list string) : gmap string pyobj :=
  list_to_map (map (fun n => (n, PyRef n)) names).

(** The names of the [builtins] module that a function body can fall back
    on (functions, constants and the exception classes of Python 3). *)
Definition builtin_names : list string :=
  [ "abs"; "all"; "any"; "ascii"; "bin"; "bool"; "breakpoint"; "bytearray";
    "bytes"; "callable"; "chr"; "classmethod"; "compile"; "complex";
    "copyright"; "credits"; "delattr"; "dict"; "dir"; "divmod"; "enumerate";
    "eval"; "exec"; "exit"; "filter"; "float"; "format"; "frozenset";
    "getattr"; "globals"; "hasattr"; "hash"; "help"; "hex"; "id"; "input";
    "int"; "isinstance"; "issubclass"; "iter"; "len"; "license"; "list";
    "locals"; "map"; "max"; "memoryview"; "min"; "next"; "object"; "oct";
    "open"; "ord"; "pow"; "print"; "property"; "quit"; "range"; "repr";
    "reversed"; "round"; "set"; "setattr"; "slice"; "sorted";
    "staticmethod"; "str"; "sum"; "super"; "tuple"; "type"; "vars"; "zip";
    "True"; "False"; "None"; "Ellipsis"; "NotImplemented"; "__debug__";
    "__name__"; "__doc__"; "__import__"; "__build_class__";
    "BaseException"; "Exception"; "ArithmeticError"; "AssertionError";
    "AttributeError"; "EOFError"; "FloatingPointError"; "ImportError";
    "IndexError"; "KeyError"; "KeyboardInterrupt"; "LookupError";
    "MemoryError"; "ModuleNotFoundError"; "NameError";
    "NotImplementedError"; "OSError"; "OverflowError"; "RecursionError";
    "RuntimeError"; "StopIteration"; "SyntaxError"; "SystemExit";
    "TypeError"; "UnboundLocalError"; "ValueError"; "ZeroDivisionError";
    "Warning"; "DeprecationWarning"; "RuntimeWarning"; "UserWarning" ].

Definition builtins : gmap string pyobj := bind_names builtin_names.

(** ** [cprior/binomial.py] *)

Module Binomial.

(** Module globals: the imports and the two classes. *)
Definition module_globals : gmap string pyobj :=
  bind_names [ "np"; "special"; "BetaABTest"; "BetaModel"; "check_models";
               "BinomialModel"; "BinomialABTest" ].

Definition global : string -> result pyobj :=
  load_global module_globals builtins.

(** [alpha] and [beta] are what the caller passed ([int] or [float]) until
    the first update, and numpy scalars afterwards. *)
Record BinomialModel : Type := mkBinomialModel {
  m : Z;
  _alpha_posterior : pynumber;
  _beta_posterior : pynumber
}.

Section Init.

(** [BetaModel.__init__] lives in [cprior/cdist], outside the two files
    modelled here; it is taken as given. *)
Variable BetaModel_init : pyobj -> pyobj -> result (pynumber * pynumber).

(** [BinomialModel.__init__(self, m, alpha=1, beta=1)]:
    [super().__init__(alpha, neta)] then [self.m = m].  Locals: [self],
    [m], [alpha], [beta]; free names: [super], [neta].  The arguments of
    the call are evaluated before the call. *)
Definition BinomialModel_init (m : Z) (alpha beta : pyobj)
    : result BinomialModel :=
  _ ← global "super";
  arg1 ← global "neta";
  post ← BetaModel_init alpha arg1;
  Ok (mkBinomialModel m post.1 post.2).

End Init.

(** The exact sum of the observations. *)
Definition total (data : list Z) : Z := foldr Z.add 0%Z data.

(** [np.sum(data)] on a list of integers: an [int64], the sum wrapped
    around; on the empty list the float [0.0].  The observations are the
    entries of the [int64] array numpy builds from [data]. *)
Definition np_sum (data : list Z) : pynumber :=
  match data with
  | [] => FloatV float64_zero
  | _ => IntV (wrap64 (total data))
  end.

(** [BinomialModel.update(self, data)].  Locals: [self], [data], [n],
    [n_success]; free names: [len], [np].  The two hyperparameters are
    assigned one after the other: an exception raised while computing the
    second leaves the first already updated.  The result is the outcome
    of the call and the model as the call leaves it. *)
Definition update (self : BinomialModel) (data : list Z)
    : result unit * BinomialModel :=
  match (_ ← global "len"; global "np") with
  | inl e => (inl e, self)
  | inr _ =>
    let n := Z.of_nat (length data) in
    let n_success := np_sum data in
    match np_scalar_add (_alpha_posterior self) n_success with
    | inl e => (inl e, self)
    | inr alpha' =>
      let self1 := mkBinomialModel (m self) alpha' (_beta_posterior self) in
      match (t ← np_scalar_sub (IntV (m self * n)) n_success;
             np_scalar_add (_beta_posterior self) t) with
      | inl e => (inl e, self1)
      | inr beta' => (Ok (), mkBinomialModel (m self) alpha' beta')
      end
    end
  end.

End Binomial.

(** ** [cprior/cdist/normal_inverse_gamma.py] *)

(** The numeric collaborators from numpy and scipy: special functions and
    the pseudo-random source.  A generator state is threaded explicitly;
    [RandomState seed] is the fresh generator scipy builds from an integer
    seed.  A draw of [size] variates has [size] elements. *)
Class Numeric : Type := {
  rng_state : Type;
  RandomState : Z -> rng_state;
  invgamma_rvs : Qc -> Qc -> nat -> rng_state -> list Qc * rng_state;
  norm_rvs : Qc -> list Qc -> nat -> rng_state -> list Qc * rng_state;
  np_sqrt : Qc -> Qc;
  np_log : Qc -> Qc;
  np_exp : Qc -> Qc;
  np_hypot : Qc -> Qc -> Qc;
  gammaln : Qc -> Qc;
  log_ndtr : Qc -> Qc;
  norm_cdf : pyfloat -> pyfloat;
  betainc : Qc -> Qc -> Qc -> pyfloat;
  invgamma_rvs_length : forall a b size g,
    length (invgamma_rvs a b size g).1 = size;
  norm_rvs_length : forall l sc size g,
    length (norm_rvs l sc size g).1 = size
}.

(** The process state a comparison can touch: numpy's global generator
    and, as a record of the sampling work done, the draws requested. *)
Inductive draw_call : Type :=
| DrawInvGamma (a scale : Qc) (size : nat) (random_state : option Z)
| DrawNorm (loc : Qc) (scale : list Qc) (size : nat)
    (random_state : option Z).

Record world `{Numeric} : Type := mkWorld {
  np_random : rng_state;
  draws : list draw_call
}.
Arguments mkWorld {_} _ _.

Definition M `{Numeric} (A : Type) : Type := world -> result A * world.

#[global] Instance M_ret `{Numeric} : MRet M := fun _ a w => (Ok a, w).

#[global] Instance M_bind `{Numeric} : MBind M := fun _ _ k c w =>
  match c w with
  | (inl e, w') => (inl e, w')
  | (inr a, w') => k a w'
  end.

Definition lift_r `{Numeric} {A : Type} (c : result A) : M A :=
  fun w => (c, w).

(** [dist.rvs(size=size, random_state=random_state)]: an integer seed
    builds a fresh generator and leaves the global one alone; [None] draws
    from the global generator and advances it. *)
Definition rvs_with `{Numeric} {A : Type} (call : draw_call)
    (random_state : option Z) (sample : rng_state -> A * rng_state) : M A :=
  fun w =>
    match random_state with
    | Some seed =>
      (Ok (sample (RandomState seed)).1,
       mkWorld (np_random w) (draws w ++ [call]))
    | None =>
      let r := sample (np_random w) in
      (Ok r.1, mkWorld r.2 (draws w ++ [call]))
    end.

Module NIG.

Definition module_globals : gmap string pyobj :=
  bind_names [ "np"; "special"; "stats"; "BayesABTest"; "BayesModel";
               "BayesMVTest"; "check_ab_method"; "check_mv_method";
               "NormalInverseGamma"; "NormalInverseGammaModel";
               "NormalInverseGammaABTest"; "NormalInverseGammaMVTest" ].

Definition global : string -> result pyobj :=
  load_global module_globals builtins.

(** *** class NormalInverseGamma *)
Module NormalInverseGamma.

(** The four parameters are floats, as the class documents them. *)

Record t : Type := mk {
  loc : Qc;
  variance_scale : Qc;
  shape : Qc;
  scale : Qc
}.

(** [__init__]; free name: [ValueError]. *)
Definition init (loc0 variance_scale0 shape0 scale0 : Qc) : result t :=
  let self := mk loc0 variance_scale0 shape0 scale0 in
  if Qc_leb (variance_scale self) 0 then
    _ ← global "ValueError"; Raise (ValueError "variance_scale must be > 0")
  else if Qc_leb (shape self) 0 then
    _ ← global "ValueError"; Raise (ValueError "shape must be > 0")
  else if Qc_leb (scale self) 0 then
    _ ← global "ValueError"; Raise (ValueError "scale must be > 0")
  else Ok self.

(** [mean]; free name: [np] (for [np.nan]). *)
Definition mean (self : t) : result (pyfloat * pyfloat) :=
  let x_mean := loc self in
  sig2_mean ←
    (if Qc_ltb 1 (shape self) then
       q ← py_div (scale self) (shape self - 1); Ok (Fin q)
     else _ ← global "np"; Ok NaN);
  Ok (Fin x_mean, sig2_mean).

(** [var]; free name: [np]. *)
Definition var (self : t) : result (pyfloat * pyfloat) :=
  x_var ←
    (if Qc_ltb 1 (shape self) then
       q ← py_div (scale self) (shape self - 1);
       q' ← py_div q (variance_scale self);
       Ok (Fin q')
     else _ ← global "np"; Ok NaN);
  sig2_var ←
    (if Qc_ltb 2 (shape self) then
       s2 ← py_pow2 (scale self);
       a2 ← py_pow2 (shape self - 1);
       q ← py_div s2 a2;
       q' ← py_div q (shape self - 2);
       Ok (Fin q')
     else _ ← global "np"; Ok NaN);
  Ok (x_var, sig2_var).

(** [_check_input]; free names: [np], [ValueError]. *)
Definition _check_input (x sig2 : pyobj) : result (list Qc * list Qc) :=
  _ ← global "np";
  let x_shape := np_shape x in
  let sig2_shape := np_shape sig2 in
  x ← as_array x;
  sig2 ← as_array sig2;
  if negb (bool_decide (x_shape = sig2_shape)) then
    _ ← global "ValueError";
    Raise (ValueError "Input variables with inconsistent dimensions.")
  else if existsb (fun s => Qc_leb s 0) sig2 then
    _ ← global "ValueError"; Raise (ValueError "sig2 must be > 0.")
  else Ok (x, sig2).

Section WithNumeric.
Context `{Numeric}.

(** [logcdf]; free names: [np], [special]. *)
Definition logcdf (self : t) (x sig2 : pyobj) : result (list Qc) :=
  '(x, sig2) ← _check_input x sig2;
  _ ← global "np"; _ ← global "special";
  Ok (zip_with (fun x sig2 =>
        let xu := np_sqrt (variance_scale self / sig2) * (x - loc self) in
        let t0 := - scale self / sig2 + shape self * np_log (scale self) in
        let t1 := - (shape self + 1) * np_log sig2 - gammaln (shape self) in
        let t2 := log_ndtr xu in
        t0 + t1 + t2) x sig2).

(** [cdf]; free name: [np]. *)
Definition cdf (self : t) (x sig2 : pyobj) : result (list Qc) :=
  _ ← global "np";
  l ← logcdf self x sig2;
  Ok (np_exp <$> l).

(** [rvs]: the dispersion is drawn first, then the location given the
    dispersion, both with the same [random_state]; the result has one row
    [(x, sig2)] per draw.  Free names: [stats], [np].  The divisor
    [variance_scale] is positive on every object [init] returns. *)
Definition rvs (self : t) (size : nat) (random_state : option Z)
    : M (list (Qc * Qc)) :=
  _ ← lift_r (global "stats");
  sig2_rv ← rvs_with
    (DrawInvGamma (shape self) (scale self) size random_state) random_state
    (invgamma_rvs (shape self) (scale self) size);
  _ ← lift_r (global "stats"); _ ← lift_r (global "np");
  let sd := np_sqrt <$> np_div_scalar sig2_rv (variance_scale self) in
  x_rv ← rvs_with
    (DrawNorm (loc self) sd size random_state) random_state
    (norm_rvs (loc self) sd size);
  _ ← lift_r (global "np");
  mret (zip x_rv sig2_rv).

End WithNumeric.

(** [mode]: [self.scale / (self.shape + 1.5)] for the dispersion. *)
Definition mode (self : t) : result (Qc * Qc) :=
  let x_mode := loc self in
  sig2_mode ← py_div (scale self) (shape self + Q2Qc (3 # 2));
  Ok (x_mode, sig2_mode).

Section Densities.
Context `{Numeric}.

(** [np.sqrt] on a float that may be [nan] or infinite; the root of a
    negative number is [nan]. *)
Definition np_sqrt_float (x : pyfloat) : pyfloat :=
  match x with
  | Fin q => if Qc_ltb q 0 then NaN else Fin (np_sqrt q)
  | PInf => PInf
  | NInf => NaN
  | NaN => NaN
  end.

(** [std]: [tuple(np.sqrt(self.var()))]; free names: [tuple], [np]. *)
Definition std (self : t) : result (pyfloat * pyfloat) :=
  _ ← global "tuple";
  _ ← global "np";
  v ← var self;
  Ok (np_sqrt_float v.1, np_sqrt_float v.2).

(** [logpdf]; free names: [np], [special]. *)
Definition logpdf (self : t) (x sig2 : pyobj) : result (list Qc) :=
  '(x, sig2) ← _check_input x sig2;
  _ ← global "np"; _ ← global "special";
  Ok (zip_with (fun x sig2 =>
        let logsig2 := np_log sig2 in
        let t0 := Q2Qc (1 # 2) * np_log (variance_scale self)
                  - Q2Qc (9189385332046727 # 10000000000000000) in
        let t1 := shape self * np_log (scale self) - gammaln (shape self) in
        let t2 := - (shape self + Q2Qc (3 # 2)) * logsig2 in
        let t3 := scale self
                  + Q2Qc (1 # 2) * variance_scale self * py_sq (x - loc self) in
        t0 + t1 + t2 - t3 / sig2) x sig2).

(** [pdf]; free name: [np]. *)
Definition pdf (self : t) (x sig2 : pyobj) : result (list Qc) :=
  _ ← global "np";
  l ← logpdf self x sig2;
  Ok (np_exp <$> l).

End Densities.

End NormalInverseGamma.

(** *** class NormalInverseGammaModel *)
Module NormalInverseGammaModel.

Record t : Type := mk {
  name : string;
  loc : Qc;
  variance_scale : Qc;
  shape : Qc;
  scale : Qc;
  _loc_posterior : Qc;
  _variance_scale_posterior : Qc;
  _shape_posterior : Qc;
  _scale_posterior : Qc
}.

Section Init.

(** [BayesModel.__init__] lives in [cprior/cdist/base.py], outside the two
    files modelled here; it is taken as given. *)
Variable BayesModel_init : string -> result unit.

(** [__init__]; free names: [super], [ValueError]. *)
Definition init (name0 : string) (loc0 variance_scale0 shape0 scale0 : Qc)
    : result t :=
  _ ← global "super";
  _ ← BayesModel_init name0;
  let self := mk name0 loc0 variance_scale0 shape0 scale0
                 loc0 variance_scale0 shape0 scale0 in
  if Qc_leb (variance_scale self) 0 then
    _ ← global "ValueError"; Raise (ValueError "variance_scale must be > 0")
  else if Qc_leb (shape self) 0 then
    _ ← global "ValueError"; Raise (ValueError "shape must be > 0")
  else if Qc_leb (scale self) 0 then
    _ ← global "ValueError"; Raise (ValueError "scale must be > 0")
  else Ok self.

End Init.

(** The read-only properties. *)
Definition loc_posterior (self : t) : Qc := _loc_posterior self.
Definition variance_scale_posterior (self : t) : Qc :=
  _variance_scale_posterior self.
Definition shape_posterior (self : t) : Qc := _shape_posterior self.
Definition scale_posterior (self : t) : Qc := _scale_posterior self.

(** The distribution object every method builds from the posterior;
    free name: [NormalInverseGamma]. *)
Definition posterior (self : t) : result NormalInverseGamma.t :=
  _ ← global "NormalInverseGamma";
  NormalInverseGamma.init (_loc_posterior self)
    (_variance_scale_posterior self) (_shape_posterior self)
    (_scale_posterior self).

Definition mean (self : t) : result (pyfloat * pyfloat) :=
  d ← posterior self; NormalInverseGamma.mean d.

Definition var (self : t) : result (pyfloat * pyfloat) :=
  d ← posterior self; NormalInverseGamma.var d.

Section WithNumeric.
Context `{Numeric}.

(** [cdf(self, x)].  Locals: [self], [x]; free names:
    [NormalInverseGamma], [sig2].  The receiver of [.cdf] is built before
    the arguments of the call are evaluated. *)
Definition cdf (self : t) (x : pyobj) : result (list Qc) :=
  d ← posterior self;
  sig2 ← global "sig2";
  NormalInverseGamma.cdf d x sig2.

(** [rvs(self, size, random_state)] *)
Definition rvs (self : t) (size : nat) (random_state : option Z)
    : M (list (Qc * Qc)) :=
  d ← lift_r (posterior self);
  NormalInverseGamma.rvs d size random_state.

End WithNumeric.

Section Delegates.
Context `{Numeric}.

Definition std (self : t) : result (pyfloat * pyfloat) :=
  d ← posterior self; NormalInverseGamma.std d.

(** [pdf(self, x, sig2)] *)
Definition pdf (self : t) (x sig2 : pyobj) : result (list Qc) :=
  d ← posterior self; NormalInverseGamma.pdf d x sig2.

End Delegates.

End NormalInverseGammaModel.

(** Modelled from the spec: [check_ab_method] is imported from
    [cprior/cdist/utils.py], which is not among the files modelled here.
    The rule the specification gives for it: a positive [lift] together
    with the exact method is rejected with [UnsupportedConfiguration];
    simulation is required whenever a nonzero lift is requested. *)
Definition check_ab_method (method : string) (method_options : list string)
    (variant : string) (lift : Qc) : result unit :=
  if Qc_ltb 0 lift && String.eqb method "exact"
  then Raise UnsupportedConfiguration
  else Ok ().

(** What a comparison returns: a tuple of floats, or [None] when the body
    ends without a [return]. *)
Inductive pyret : Type :=
| RetNone
| RetTuple (xs : list pyfloat).

(** *** class NormalInverseGammaABTest *)
Module NormalInverseGammaABTest.

(** The attributes the methods read; [BayesABTest.__init__], which stores
    them, lives in [cprior/cdist/base.py]. *)
Record t : Type := mk {
  modelA : NormalInverseGammaModel.t;
  modelB : NormalInverseGammaModel.t;
  simulations : nat;
  random_state : option Z
}.

Section WithNumeric.
Context `{Numeric}.

(** [probability(self, method, variant, lift)].  Locals: the parameters,
    [muA], [laA], [aA], [bA], [muB], [laB], [aB], [bB], [prob_mean], [p],
    [prob_var], [prob_mean_A], [prob_var_A], [prob_mean_B], [prob_var_B],
    [data_A], [data_B], [xA], [sig2A], [xB], [sig2B].  Free names:
    [check_ab_method], [stats], [np], [special], [sigA], [sigB]. *)
Definition probability (self : t) (method variant : string) (lift : Qc)
    : M pyret :=
  _ ← lift_r (global "check_ab_method");
  _ ← lift_r (check_ab_method method ["exact"; "MC"] variant lift);
  if String.eqb method "exact" then
    let muA := NormalInverseGammaModel.loc_posterior (modelA self) in
    let laA := NormalInverseGammaModel.variance_scale_posterior (modelA self) in
    let aA := NormalInverseGammaModel.shape_posterior (modelA self) in
    let bA := NormalInverseGammaModel.scale_posterior (modelA self) in
    let muB := NormalInverseGammaModel.loc_posterior (modelB self) in
    let laB := NormalInverseGammaModel.variance_scale_posterior (modelB self) in
    let aB := NormalInverseGammaModel.shape_posterior (modelB self) in
    let bB := NormalInverseGammaModel.scale_posterior (modelB self) in
    (** [stats.norm.cdf((mu1 - mu2) / np.hypot(sigA, sigB))] *)
    let norm_part (mu1 mu2 : Qc) : result pyfloat :=
      _ ← global "stats";
      let d := mu1 - mu2 in
      _ ← global "np";
      sigA ← global "sigA" ≫= as_float;
      sigB ← global "sigB" ≫= as_float;
      Ok (norm_cdf (np_true_divide d (np_hypot sigA sigB))) in
    (** [special.betainc(a1, a2, b1 / (bA + bB))] *)
    let beta_part (a1 a2 b1 : Qc) : result pyfloat :=
      _ ← global "special";
      p ← py_div b1 (bA + bB);
      Ok (betainc a1 a2 p) in
    lift_r (
      if String.eqb variant "A" then
        prob_mean ← norm_part muA muB;
        p ← py_div bA (bA + bB);
        _ ← global "special";
        let prob_var := betainc aA aB p in
        Ok (RetTuple [prob_mean; prob_var])
      else if String.eqb variant "B" then
        prob_mean ← norm_part muB muA;
        p ← py_div bB (bA + bB);
        _ ← global "special";
        let prob_var := betainc aB aA p in
        Ok (RetTuple [prob_mean; prob_var])
      else
        prob_mean_A ← norm_part muA muB;
        prob_var_A ← beta_part aA aB bA;
        prob_mean_B ← norm_part muB muA;
        prob_var_B ← beta_part aB aA bB;
        Ok (RetTuple [prob_mean_A; prob_var_A; prob_mean_B; prob_var_B]))
  else
    data_A ← NormalInverseGammaModel.rvs (modelA self) (simulations self)
               (random_state self);
    data_B ← NormalInverseGammaModel.rvs (modelB self) (simulations self)
               (random_state self);
    let xA := data_A.*1 in let sig2A := data_A.*2 in
    let xB := data_B.*1 in let sig2B := data_B.*2 in
    if String.eqb variant "A" then
      mret (RetTuple [ np_mean_bool (np_gt xA (np_add_scalar xB lift));
                       np_mean_bool (np_gt sig2A (np_add_scalar sig2B lift)) ])
    else if String.eqb variant "B" then
      mret (RetTuple [ np_mean_bool (np_gt xB (np_add_scalar xA lift));
                       np_mean_bool (np_gt sig2B (np_add_scalar sig2A lift)) ])
    else
      mret (RetTuple [ np_mean_bool (np_gt xA (np_add_scalar xB lift));
                       np_mean_bool (np_gt sig2A (np_add_scalar sig2B lift));
                       np_mean_bool (np_gt xB (np_add_scalar xA lift));
                       np_mean_bool (np_gt sig2B (np_add_scalar sig2A lift)) ]).

(** [np.maximum(other - self - lift, 0).mean()] *)
Definition loss_mean (other self : list Qc) (lift : Qc) : pyfloat :=
  np_mean (np_maximum_scalar (np_sub_scalar (np_sub other self) lift) 0).

(** [expected_loss(self, method, variant, lift)].  Locals: the parameters,
    [muA] ... [bB], [data_A], [data_B], [xA], [sig2A], [xB], [sig2B].
    Free names: [check_ab_method], [np].  Each exact branch is [pass], so
    the body ends without a [return]. *)
Definition expected_loss (self : t) (method variant : string) (lift : Qc)
    : M pyret :=
  _ ← lift_r (global "check_ab_method");
  _ ← lift_r (check_ab_method method ["exact"; "MC"] variant lift);
  if String.eqb method "exact" then
    let muA := NormalInverseGammaModel.loc_posterior (modelA self) in
    let laA := NormalInverseGammaModel.variance_scale_posterior (modelA self) in
    let aA := NormalInverseGammaModel.shape_posterior (modelA self) in
    let bA := NormalInverseGammaModel.scale_posterior (modelA self) in
    let muB := NormalInverseGammaModel.loc_posterior (modelB self) in
    let laB := NormalInverseGammaModel.variance_scale_posterior (modelB self) in
    let aB := NormalInverseGammaModel.shape_posterior (modelB self) in
    let bB := NormalInverseGammaModel.scale_posterior (modelB self) in
    if String.eqb variant "A" then mret RetNone
    else if String.eqb variant "B" then mret RetNone
    else mret RetNone
  else
    data_A ← NormalInverseGammaModel.rvs (modelA self) (simulations self)
               (random_state self);
    data_B ← NormalInverseGammaModel.rvs (modelB self) (simulations self)
               (random_state self);
    let xA := data_A.*1 in let sig2A := data_A.*2 in
    let xB := data_B.*1 in let sig2B := data_B.*2 in
    _ ← lift_r (global "np");
    if String.eqb variant "A" then
      mret (RetTuple [ loss_mean xB xA lift; loss_mean sig2B sig2A lift ])
    else if String.eqb variant "B" then
      mret (RetTuple [ loss_mean xA xB lift; loss_mean sig2A sig2B lift ])
    else
      mret (RetTuple [ loss_mean xB xA lift; loss_mean sig2B sig2A lift;
                       loss_mean xA xB lift; loss_mean sig2A sig2B lift ]).

End WithNumeric.

End NormalInverseGammaABTest.

End NIG.

(** * Specification-level notions *)

(** A batch the specification wants rejected: empty, or with an
    observation outside the support [0..m] of a binomial with [m] trials. *)
Definition out_of_support (m : Z) (data : list Z) : Prop :=
  data = [] \/ Exists (fun x => (x < 0 \/ m < x)%Z) data.

(** A sequence of [update] calls, one per batch, each on the model the
    previous one left; an exception ends the sequence. *)
Fixpoint update_each (self : Binomial.BinomialModel)
    (batches : list (list Z)) : result unit * Binomial.BinomialModel :=
  match batches with
  | [] => (Ok (), self)
  | D :: rest =>
    match Binomial.update self D with
    | (inl e, self') => (inl e, self')
    | (inr _, self') => update_each self' rest
    end
  end.

(** The variants the docstrings of the comparison list. *)
Definition documented_variant (variant : string) : Prop :=
  variant = "A" \/ variant = "B" \/ variant = "all".

(** The seed a draw was requested with. *)
Definition draw_seed (c : draw_call) : option Z :=
  match c with
  | DrawInvGamma _ _ _ rs => rs
  | DrawNorm _ _ _ rs => rs
  end.

(** Expected loss in the specification's words: the empirical mean, over
    the simulated draws, of [max(other - self - lift, 0)]. *)
Definition Qc_max (x y : Qc) : Qc := if decide (x <= y) then y else x.

Definition empirical_mean (xs : list Qc) : pyfloat :=
  match length xs with
  | O => NaN
  | S _ as n => Fin (fold_left Qcplus xs 0 / Qc_of_nat n)
  end.

Definition empirical_loss (other self : list Qc) (lift : Qc) : pyfloat :=
  empirical_mean
    ((fun d : Qc * Qc => Qc_max (d.1 - d.2 - lift) 0) <$> zip other self).

(** The two simulation estimates read row by row over paired draws: the
    fraction of rows where [x > y + lift], and the mean over the rows of
    [max(other - self - lift, 0)]. *)
Definition exceed_rate (xs ys : list Qc) (lift : Qc) : pyfloat :=
  np_mean ((fun p : Qc * Qc => if Qc_ltb (p.2 + lift) p.1 then 1 else 0)
           <$> zip xs ys).

Definition loss_rate (other self : list Qc) (lift : Qc) : pyfloat :=
  np_mean ((fun d : Qc * Qc => Qc_max (d.1 - d.2 - lift) 0)
           <$> zip other self).

(** * Concrete instances *)

Module Examples.

(** A binomial model with ten trials per observation and a flat prior. *)
Definition binomial10 : Binomial.BinomialModel :=
  Binomial.mkBinomialModel 10 (IntV 1) (IntV 1).

(** The same with the float prior [alpha = 0.001], [beta = 1.0]. *)
Definition float_prior10 : Binomial.BinomialModel :=
  Binomial.mkBinomialModel 10
    (FloatV (float64_div (float64_of_Z 1) (float64_of_Z 1000)))
    (FloatV (float64_of_Z 1)).

(** A model with [2^62] trials per observation. *)
Definition huge_trials : Binomial.BinomialModel :=
  Binomial.mkBinomialModel (2 ^ 62) (IntV 1) (IntV 1).

(** A batch holding a negative count and more successes than trials. *)
Definition bad_batch : list Z := [(-1)%Z; 11%Z].

(** A deterministic stand-in for the numeric collaborators: the generator
    state is a counter, a draw of [size] variates reads [size] consecutive
    values from it. *)
#[local] Instance counter_numeric : Numeric := {|
  rng_state := Z;
  RandomState := fun seed => seed;
  invgamma_rvs := fun a b size g =>
    ((fun i => b + Qc_of_Z (g + Z.of_nat i)) <$> seq 0 size,
     (g + Z.of_nat size)%Z);
  norm_rvs := fun l sc size g =>
    ((fun i => l + Qc_of_Z (g + Z.of_nat i)) <$> seq 0 size,
     (g + Z.of_nat size)%Z);
  np_sqrt := fun x => x;
  np_log := fun x => x;
  np_exp := fun x => x;
  np_hypot := fun x y => x + y;
  gammaln := fun x => x;
  log_ndtr := fun x => x;
  norm_cdf := fun x => x;
  betainc := fun a b x => Fin x;
  invgamma_rvs_length := fun a b size g =>
    eq_trans (length_fmap _ _) (length_seq size 0);
  norm_rvs_length := fun l sc size g =>
    eq_trans (length_fmap _ _) (length_seq size 0)
|}.

Definition model1 : NIG.NormalInverseGammaModel.t :=
  NIG.NormalInverseGammaModel.mk "A" 0 1 (Qc_of_Z 3) (Qc_of_Z 2)
    0 1 (Qc_of_Z 3) (Qc_of_Z 2).

Definition model2 : NIG.NormalInverseGammaModel.t :=
  NIG.NormalInverseGammaModel.mk "B" 1 1 (Qc_of_Z 2) 1 1 1 (Qc_of_Z 2) 1.

Definition abtest (random_state : option Z) : NIG.NormalInverseGammaABTest.t :=
  NIG.NormalInverseGammaABTest.mk model1 model2 3 random_state.

Definition world0 : world := mkWorld 0%Z [].

End Examples.

(** * Properties *)

Lemma Qc_of_Z_add (a b : Z) : Qc_of_Z (a + b) = Qc_of_Z a + Qc_of_Z b.
Proof.
  unfold Qc_of_Z. apply Qc_is_canon. simpl.
  rewrite !Qred_correct. rewrite inject_Z_plus. reflexivity.
Qed.

Lemma Qc_of_Z_0 : Qc_of_Z 0 = 0.
Proof. apply Qc_is_canon. reflexivity. Qed.

(** ** Binomial model: sums and the [int64] range *)

Lemma total_app (d1 d2 : list Z) :
  Binomial.total (d1 ++ d2) = (Binomial.total d1 + Binomial.total d2)%Z.
Proof.
  induction d1 as [|x d1 IH]; simpl; [reflexivity|].
  rewrite IH. lia.
Qed.

Lemma total_Permutation (d1 d2 : list Z) :
  d1 ≡ₚ d2 -> Binomial.total d1 = Binomial.total d2.
Proof.
  induction 1 as [|x l l' _ IH|x y l|l l' l'' _ IH1 _ IH2]; simpl;
    [reflexivity|rewrite IH; reflexivity|lia|congruence].
Qed.

Lemma total_bounds (m : Z) (data : list Z) :
  Forall (fun x => (0 <= x <= m)%Z) data ->
  (0 <= Binomial.total data <= m * Z.of_nat (length data))%Z.
Proof.
  induction 1 as [|x data Hx _ IH]; simpl; lia.
Qed.

Lemma in_int64_true (z : Z) :
  in_int64 z = true <-> (int64_min <= z <= int64_max)%Z.
Proof. unfold in_int64. rewrite andb_true_iff, !Z.leb_le. reflexivity. Qed.

Lemma wrap64_in_range (z : Z) :
  (int64_min <= z <= int64_max)%Z -> wrap64 z = z.
Proof.
  unfold int64_min, int64_max, wrap64. intros Hz.
  rewrite Z.mod_small by lia. lia.
Qed.

Lemma wrap64_range (z : Z) : (int64_min <= wrap64 z <= int64_max)%Z.
Proof.
  unfold int64_min, int64_max, wrap64.
  pose proof (Z.mod_pos_bound (z + 2 ^ 63) (2 ^ 64)) as Hb. lia.
Qed.

Lemma global_len : Binomial.global "len" = Ok (PyRef "len").
Proof. reflexivity. Qed.

Lemma global_np_binomial : Binomial.global "np" = Ok (PyRef "np").
Proof. reflexivity. Qed.

Lemma np_sum_nonempty (data : list Z) :
  data <> [] -> Binomial.np_sum data = IntV (wrap64 (Binomial.total data)).
Proof. destruct data; [congruence|reflexivity]. Qed.

(** [update] on integer hyperparameters and a non-empty batch, with the
    wrap-around left in. *)
Lemma update_ints (self : Binomial.BinomialModel) (a b : Z) (data : list Z) :
  Binomial._alpha_posterior self = IntV a ->
  Binomial._beta_posterior self = IntV b ->
  data <> [] ->
  in_int64 a = true -> in_int64 b = true ->
  in_int64 (Binomial.m self * Z.of_nat (length data)) = true ->
  Binomial.update self data =
  (Ok (),
   Binomial.mkBinomialModel (Binomial.m self)
     (IntV (wrap64 (a + wrap64 (Binomial.total data))))
     (IntV (wrap64 (b + wrap64 (Binomial.m self * Z.of_nat (length data)
                                - wrap64 (Binomial.total data)))))).
Proof.
  intros Ha Hb Hne Ia Ib Imn. unfold Binomial.update.
  rewrite global_len, global_np_binomial. cbn [mbind result_bind].
  rewrite Ha, Hb, (np_sum_nonempty data Hne).
  unfold np_scalar_add, np_scalar_sub, int_to_int64.
  rewrite Ia, Ib, Imn. reflexivity.
Qed.

(** The same when nothing leaves the [int64] range: in-support
    observations, non-negative hyperparameters, room for [m] times the
    batch length. *)
Lemma update_in_range (self : Binomial.BinomialModel) (a b : Z)
    (data : list Z) :
  Binomial._alpha_posterior self = IntV a ->
  Binomial._beta_posterior self = IntV b ->
  data <> [] ->
  Forall (fun x => (0 <= x <= Binomial.m self)%Z) data ->
  (0 <= a)%Z -> (0 <= b)%Z ->
  (a + Binomial.m self * Z.of_nat (length data) <= int64_max)%Z ->
  (b + Binomial.m self * Z.of_nat (length data) <= int64_max)%Z ->
  Binomial.update self data =
  (Ok (),
   Binomial.mkBinomialModel (Binomial.m self)
     (IntV (a + Binomial.total data))
     (IntV (b + (Binomial.m self * Z.of_nat (length data)
                 - Binomial.total data)))).
Proof.
  intros Ha Hb Hne Hsupp Ha0 Hb0 Hamax Hbmax.
  pose proof (total_bounds _ _ Hsupp) as [Ht0 Htm].
  assert (Hmin : (int64_min <= 0)%Z) by (unfold int64_min; lia).
  rewrite (update_ints self a b data Ha Hb Hne);
    try (apply in_int64_true; lia).
  rewrite (wrap64_in_range (Binomial.total data)) by lia.
  rewrite (wrap64_in_range (a + _)) by lia.
  rewrite (wrap64_in_range (_ - _)) by lia.
  rewrite (wrap64_in_range (b + _)) by lia.
  reflexivity.
Qed.

(** A sequence of updates in that range. *)
Lemma update_each_in_range (batches : list (list Z)) :
  forall (self : Binomial.BinomialModel) (a b : Z),
  Binomial._alpha_posterior self = IntV a ->
  Binomial._beta_posterior self = IntV b ->
  Forall (fun D => D <> []) batches ->
  Forall (fun x => (0 <= x <= Binomial.m self)%Z) (concat batches) ->
  (0 <= a)%Z -> (0 <= b)%Z ->
  (a + Binomial.m self * Z.of_nat (length (concat batches)) <= int64_max)%Z ->
  (b + Binomial.m self * Z.of_nat (length (concat batches)) <= int64_max)%Z ->
  update_each self batches =
  (Ok (),
   Binomial.mkBinomialModel (Binomial.m self)
     (IntV (a + Binomial.total (concat batches)))
     (IntV (b + (Binomial.m self * Z.of_nat (length (concat batches))
                 - Binomial.total (concat batches))))).
Proof.
  induction batches as [|D rest IH];
    intros self a b Ha Hb Hne Hsupp Ha0 Hb0 Hamax Hbmax.
  - destruct self as [m0 a0 b0]. simpl in *. subst.
    rewrite Z.mul_0_r, !Z.add_0_r. reflexivity.
  - cbn [concat] in *. apply Forall_cons in Hne as [HD Hrest].
    apply Forall_app in Hsupp as [HsD Hsr].
    rewrite length_app, Nat2Z.inj_add, Z.mul_add_distr_l in Hamax, Hbmax.
    pose proof (total_bounds _ _ HsD) as [HtD0 HtDm].
    pose proof (total_bounds _ _ Hsr) as [Htr0 Htrm].
    assert (Hlr : (0 <= Binomial.m self * Z.of_nat (length (concat rest)))%Z)
      by lia.
    cbn [update_each].
    rewrite (update_in_range self a b D Ha Hb HD HsD Ha0 Hb0) by lia.
    rewrite (IH _ (a + Binomial.total D)%Z
               (b + (Binomial.m self * Z.of_nat (length D)
                     - Binomial.total D))%Z);
      cbn [Binomial.m Binomial._alpha_posterior Binomial._beta_posterior];
      try reflexivity; try assumption; try lia.
    rewrite total_app, length_app, Nat2Z.inj_add, Z.mul_add_distr_l.
    do 2 f_equal; f_equal; lia.
Qed.

(** C3, as stated, fails.  With the float prior [alpha = 0.001] the two
    batches [[1]] and [[3]] leave [(0.001 + 1) + 3], the single batch
    [[1; 3]] leaves [0.001 + 4], one unit in the last place apart.  With
    [m = 2^62] the two batches [[2^62]] and [[2^62]] are accepted (the
    second sum wraps around) while the single batch [[2^62; 2^62]] raises
    [OverflowError]. *)
Lemma update_additive_fails :
  update_each Examples.float_prior10 [[1%Z]; [3%Z]]
    <> Binomial.update Examples.float_prior10 ([1%Z] ++ [3%Z])
  /\ (update_each Examples.huge_trials [[(2 ^ 62)%Z]; [(2 ^ 62)%Z]]).1
     = Ok ()
  /\ (Binomial.update Examples.huge_trials
        ([(2 ^ 62)%Z] ++ [(2 ^ 62)%Z])).1
     = Raise OverflowError.
Proof.
  split; [|split].
  - vm_compute. intros [=].
  - vm_compute. reflexivity.
  - vm_compute. reflexivity.
Qed.

(** C3, amended.  For integer hyperparameters [alpha, beta >= 0] and two
    non-empty batches of observations between [0] and [m], when [alpha]
    and [beta] each leave room in [int64] for [m] times the total number
    of observations, updating with [D1] and then with [D2] returns
    normally and leaves the very model that one update with [D1 ++ D2]
    leaves: [alpha] plus the sum of the observations, [beta] plus [m]
    times their number minus that sum. *)
Theorem update_additive (self : Binomial.BinomialModel) (a b : Z)
    (D1 D2 : list Z) :
  Binomial._alpha_posterior self = IntV a ->
  Binomial._beta_posterior self = IntV b ->
  D1 <> [] -> D2 <> [] ->
  Forall (fun x => (0 <= x <= Binomial.m self)%Z) (D1 ++ D2) ->
  (0 <= a)%Z -> (0 <= b)%Z ->
  (a + Binomial.m self * Z.of_nat (length (D1 ++ D2)) <= int64_max)%Z ->
  (b + Binomial.m self * Z.of_nat (length (D1 ++ D2)) <= int64_max)%Z ->
  update_each self [D1; D2] = Binomial.update self (D1 ++ D2)
  /\ Binomial.update self (D1 ++ D2) =
     (Ok (),
      Binomial.mkBinomialModel (Binomial.m self)
        (IntV (a + Binomial.total (D1 ++ D2)))
        (IntV (b + (Binomial.m self * Z.of_nat (length (D1 ++ D2))
                    - Binomial.total (D1 ++ D2))))).
Proof.
  intros Ha Hb H1 H2 Hsupp Ha0 Hb0 Hamax Hbmax.
  assert (Hne : D1 ++ D2 <> []) by (destruct D1; [congruence|discriminate]).
  rewrite (update_in_range self a b (D1 ++ D2)) by assumption.
  split; [|reflexivity].
  rewrite (update_each_in_range [D1; D2] self a b); cbn [concat];
    rewrite ?app_nil_r; try assumption; [reflexivity|].
  repeat constructor; assumption.
Qed.

Lemma update_additive_witness :
  update_each Examples.binomial10 [[3%Z]; [7%Z]]
  = Binomial.update Examples.binomial10 ([3%Z] ++ [7%Z])
  /\ Binomial.update Examples.binomial10 ([3%Z] ++ [7%Z]) =
     (Ok (), Binomial.mkBinomialModel 10 (IntV 11) (IntV 11)).
Proof.
  apply (update_additive Examples.binomial10 1 1 [3%Z] [7%Z]);
    try reflexivity; try discriminate.
  repeat constructor; simpl; lia.
Defined.


Lemma np_scalar_add_outcome (x y : pynumber) :
  (exists z, np_scalar_add x y = Ok z)
  \/ np_scalar_add x y = Raise OverflowError.
Proof.
  destruct x as [a|f], y as [b|g]; unfold np_scalar_add, int_to_int64,
    int_to_float64; cbn [mbind result_bind].
  - destruct (in_int64 a); eauto.
  - destruct (Z.abs a <? float_overflow_bound)%Z; eauto.
  - eauto.
  - eauto.
Qed.

Lemma np_scalar_sub_outcome (x y : pynumber) :
  (exists z, np_scalar_sub x y = Ok z)
  \/ np_scalar_sub x y = Raise OverflowError.
Proof.
  destruct x as [a|f], y as [b|g]; unfold np_scalar_sub, int_to_int64,
    int_to_float64; cbn [mbind result_bind].
  - destruct (in_int64 a); eauto.
  - destruct (Z.abs a <? float_overflow_bound)%Z; eauto.
  - eauto.
  - eauto.
Qed.


(** C9.  [BinomialModel.__init__] raises [NameError] on the name [neta]
    whatever [m], [alpha] and [beta] are, and whatever the base-class
    constructor would do: no instance is ever returned. *)
Theorem BinomialModel_init_raises_NameError
    (BetaModel_init : pyobj -> pyobj -> result (pynumber * pynumber))
    (m : Z) (alpha beta : pyobj) :
  Binomial.BinomialModel_init BetaModel_init m alpha beta
  = Raise (NameError "neta").
Proof. reflexivity. Qed.

(** ** Normal-inverse-gamma: name lookups *)

Lemma global_np : NIG.global "np" = Ok (PyRef "np").
Proof. reflexivity. Qed.
Lemma global_stats : NIG.global "stats" = Ok (PyRef "stats").
Proof. reflexivity. Qed.
Lemma global_special : NIG.global "special" = Ok (PyRef "special").
Proof. reflexivity. Qed.
Lemma global_ValueError : NIG.global "ValueError" = Ok (PyRef "ValueError").
Proof. reflexivity. Qed.
Lemma global_super : NIG.global "super" = Ok (PyRef "super").
Proof. reflexivity. Qed.
Lemma global_check_ab_method :
  NIG.global "check_ab_method" = Ok (PyRef "check_ab_method").
Proof. reflexivity. Qed.
Lemma global_NormalInverseGamma :
  NIG.global "NormalInverseGamma" = Ok (PyRef "NormalInverseGamma").
Proof. reflexivity. Qed.
Lemma global_sig2 : NIG.global "sig2" = Raise (NameError "sig2").
Proof. reflexivity. Qed.
Lemma global_sigA : NIG.global "sigA" = Raise (NameError "sigA").
Proof. reflexivity. Qed.

Create Rewrite HintDb pynames.
#[local] Hint Rewrite global_np global_stats global_special
  global_ValueError global_super global_check_ab_method
  global_NormalInverseGamma global_sig2 global_sigA : pynames.

Lemma rbind_Ok {A B : Type} (a : A) (k : A -> result B) :
  (Ok a ≫= k) = k a.
Proof. reflexivity. Qed.

Lemma rbind_Raise {A B : Type} (e : exn) (k : A -> result B) :
  (Raise e ≫= k) = Raise e.
Proof. reflexivity. Qed.

#[local] Hint Rewrite @rbind_Ok @rbind_Raise : pynames.

Ltac resolve_names := autorewrite with pynames.

(** ** Comparisons on rationals *)

Lemma Qc_ltb_lt (x y : Qc) : Qc_ltb x y = true <-> x < y.
Proof. unfold Qc_ltb. apply bool_decide_eq_true. Qed.

Lemma Qc_ltb_ge (x y : Qc) : Qc_ltb x y = false <-> y <= x.
Proof.
  unfold Qc_ltb. rewrite bool_decide_eq_false. split.
  - apply Qcnot_lt_le.
  - intros Hle Hlt. exact (Qcle_not_lt _ _ Hle Hlt).
Qed.

Lemma Qc_leb_le (x y : Qc) : Qc_leb x y = true <-> x <= y.
Proof. unfold Qc_leb. apply bool_decide_eq_true. Qed.

Lemma Qc_leb_gt (x y : Qc) : Qc_leb x y = false <-> y < x.
Proof.
  unfold Qc_leb. rewrite bool_decide_eq_false. split.
  - apply Qcnot_le_lt.
  - intros Hlt Hle. exact (Qcle_not_lt _ _ Hle Hlt).
Qed.

Lemma py_div_nonzero (x y : Qc) : y <> 0 -> py_div x y = Ok (x / y).
Proof.
  intros Hy. unfold py_div, Qc_eqb.
  rewrite bool_decide_eq_false_2 by exact Hy. reflexivity.
Qed.

Lemma Qc_lt_minus_pos (a b : Qc) : a < b -> b - a <> 0.
Proof.
  intros Hlt E. apply (Qclt_not_eq _ _ Hlt).
  symmetry. rewrite <- (Qcplus_0_l a), <- E. ring.
Qed.

(** The constructor accepts exactly the positive parameters. *)
Lemma NormalInverseGamma_init_Ok (l v a b : Qc) (d : NIG.NormalInverseGamma.t) :
  NIG.NormalInverseGamma.init l v a b = Ok d ->
  d = NIG.NormalInverseGamma.mk l v a b /\ 0 < v /\ 0 < a /\ 0 < b.
Proof.
  unfold NIG.NormalInverseGamma.init. cbn [NIG.NormalInverseGamma.variance_scale
    NIG.NormalInverseGamma.shape NIG.NormalInverseGamma.scale].
  destruct (Qc_leb v 0) eqn:Ev; [resolve_names; discriminate|].
  destruct (Qc_leb a 0) eqn:Ea; [resolve_names; discriminate|].
  destruct (Qc_leb b 0) eqn:Eb; [resolve_names; discriminate|].
  intros [= <-]. apply Qc_leb_gt in Ev, Ea, Eb. auto.
Qed.

Lemma NormalInverseGamma_init_pos (l v a b : Qc) :
  0 < v -> 0 < a -> 0 < b ->
  NIG.NormalInverseGamma.init l v a b = Ok (NIG.NormalInverseGamma.mk l v a b).
Proof.
  intros Hv Ha Hb. unfold NIG.NormalInverseGamma.init.
  cbn [NIG.NormalInverseGamma.variance_scale
    NIG.NormalInverseGamma.shape NIG.NormalInverseGamma.scale].
  apply Qc_leb_gt in Hv, Ha, Hb. rewrite Hv, Ha, Hb. reflexivity.
Qed.


(** ** Empirical means *)

Lemma fold_left_Qcplus (xs : list Qc) (acc : Qc) :
  fold_left Qcplus xs acc = acc + Qc_sum xs.
Proof.
  revert acc. induction xs as [|x xs IH]; intros acc; simpl.
  - ring.
  - rewrite IH. ring.
Qed.

Lemma np_mean_empirical (xs : list Qc) : np_mean xs = empirical_mean xs.
Proof.
  unfold np_mean, empirical_mean. destruct xs as [|x xs]; [reflexivity|].
  rewrite fold_left_Qcplus, Qcplus_0_l. reflexivity.
Qed.

Lemma maximum_0_max (x : Qc) :
  (if Qc_ltb x 0 then 0 else x) = Qc_max x 0.
Proof.
  unfold Qc_max. destruct (Qc_ltb x 0) eqn:E.
  - apply Qc_ltb_lt in E.
    destruct (decide (x <= 0)) as [_|Hn]; [reflexivity|].
    exfalso. apply Hn, Qclt_le_weak, E.
  - apply Qc_ltb_ge in E.
    destruct (decide (x <= 0)) as [Hle|_]; [|reflexivity].
    apply Qcle_antisym; assumption.
Qed.

Lemma maximum_sub_zip (other self : list Qc) (lift : Qc) :
  np_maximum_scalar (np_sub_scalar (np_sub other self) lift) 0
  = (fun d : Qc * Qc => Qc_max (d.1 - d.2 - lift) 0) <$> zip other self.
Proof.
  unfold np_maximum_scalar, np_sub_scalar, np_sub.
  revert self. induction other as [|o other IH]; intros [|s self];
    try reflexivity.
  cbn [zip_with fmap list_fmap]. f_equal.
  - apply maximum_0_max.
  - apply IH.
Qed.

(** ** The state-and-error monad *)

Section Comparison.
Context `{Numeric}.

Lemma M_bind_lift_Ok {A B : Type} (a : A) (k : A -> M B) (w : world) :
  (lift_r (Ok a) ≫= k) w = k a w.
Proof. reflexivity. Qed.

Lemma M_bind_lift_Raise {A B : Type} (e : exn) (k : A -> M B) (w : world) :
  (lift_r (Raise e) ≫= k) w = (Raise e, w).
Proof. reflexivity. Qed.

Lemma check_ab_method_exact_pos (options : list string) (variant : string)
    (lift : Qc) :
  0 < lift ->
  NIG.check_ab_method "exact" options variant lift
  = Raise UnsupportedConfiguration.
Proof.
  intros Hl. unfold NIG.check_ab_method.
  apply Qc_ltb_lt in Hl. rewrite Hl. reflexivity.
Qed.

Lemma check_ab_method_exact_0 (options : list string) (variant : string) :
  NIG.check_ab_method "exact" options variant 0 = Ok ().
Proof. reflexivity. Qed.

Lemma check_ab_method_MC (options : list string) (variant : string)
    (lift : Qc) :
  NIG.check_ab_method "MC" options variant lift = Ok ().
Proof.
  unfold NIG.check_ab_method. rewrite andb_false_r. reflexivity.
Qed.

(** C1.  With the exact method and no lift, [probability] does not return
    the pair the documentation describes: whatever the variant and the two
    models, it raises [NameError] on [sigA], the spread it never computes,
    before any probability is evaluated and without sampling. *)
Theorem probability_exact_raises_NameError
    (self : NIG.NormalInverseGammaABTest.t) (variant : string) (w : world) :
  NIG.NormalInverseGammaABTest.probability self "exact" variant 0 w
  = (Raise (NameError "sigA"), w).
Proof.
  unfold NIG.NormalInverseGammaABTest.probability.
  rewrite global_check_ab_method, M_bind_lift_Ok.
  rewrite check_ab_method_exact_0, M_bind_lift_Ok.
  change (String.eqb "exact" "exact") with true. cbv iota.
  resolve_names.
  destruct (String.eqb variant "A"); [reflexivity|].
  destruct (String.eqb variant "B"); reflexivity.
Qed.

(** C2.  A positive lift with the exact method is rejected by both
    operations with [UnsupportedConfiguration], for every variant ("A",
    "B", "both" or any other), and the world comes back untouched: no draw
    was requested and the generator was not advanced. *)
Theorem exact_with_lift_is_rejected
    (self : NIG.NormalInverseGammaABTest.t) (variant : string) (lift : Qc)
    (w : world) :
  0 < lift ->
  NIG.NormalInverseGammaABTest.probability self "exact" variant lift w
    = (Raise UnsupportedConfiguration, w)
  /\ NIG.NormalInverseGammaABTest.expected_loss self "exact" variant lift w
    = (Raise UnsupportedConfiguration, w).
Proof.
  intros Hl.
  unfold NIG.NormalInverseGammaABTest.probability,
    NIG.NormalInverseGammaABTest.expected_loss.
  rewrite global_check_ab_method, !M_bind_lift_Ok.
  rewrite (check_ab_method_exact_pos _ _ _ Hl), !M_bind_lift_Raise.
  split; reflexivity.
Qed.

Lemma expected_loss_exact_0
    (self : NIG.NormalInverseGammaABTest.t) (variant : string) (w : world) :
  NIG.NormalInverseGammaABTest.expected_loss self "exact" variant 0 w
  = (Ok NIG.RetNone, w).
Proof.
  unfold NIG.NormalInverseGammaABTest.expected_loss.
  rewrite global_check_ab_method, M_bind_lift_Ok.
  rewrite check_ab_method_exact_0, M_bind_lift_Ok.
  change (String.eqb "exact" "exact") with true. cbv iota.
  destruct (String.eqb variant "A"); [reflexivity|].
  destruct (String.eqb variant "B"); reflexivity.
Qed.

(** C4.  With the exact method and no lift, [expected_loss] signals
    nothing: each exact branch reads the posterior parameters and then
    does nothing, so for every variant the call returns [None], raising no
    exception and requesting no draw, where its documentation promises the
    expected loss. *)
Theorem expected_loss_exact_returns_None
    (self : NIG.NormalInverseGammaABTest.t) (variant : string) (w : world) :
  NIG.NormalInverseGammaABTest.expected_loss self "exact" variant 0 w
    = (Ok NIG.RetNone, w)
  /\ ~ raises (NIG.NormalInverseGammaABTest.expected_loss
                 self "exact" variant 0 w).1.
Proof.
  rewrite expected_loss_exact_0. split; [reflexivity|].
  intros [e He]. discriminate He.
Qed.

(** ** The posterior CDF *)

Lemma NormalInverseGammaModel_init_Ok
    (BayesModel_init : string -> result unit) (name : string)
    (l v a b : Qc) (mdl : NIG.NormalInverseGammaModel.t) :
  NIG.NormalInverseGammaModel.init BayesModel_init name l v a b = Ok mdl ->
  mdl = NIG.NormalInverseGammaModel.mk name l v a b l v a b
  /\ 0 < v /\ 0 < a /\ 0 < b.
Proof.
  unfold NIG.NormalInverseGammaModel.init. resolve_names.
  destruct (BayesModel_init name) as [e|[]]; [discriminate|].
  resolve_names.
  cbn [NIG.NormalInverseGammaModel.variance_scale
       NIG.NormalInverseGammaModel.shape NIG.NormalInverseGammaModel.scale].
  destruct (Qc_leb v 0) eqn:Ev; [resolve_names; discriminate|].
  destruct (Qc_leb a 0) eqn:Ea; [resolve_names; discriminate|].
  destruct (Qc_leb b 0) eqn:Eb; [resolve_names; discriminate|].
  intros [= <-]. apply Qc_leb_gt in Ev, Ea, Eb. auto.
Qed.

(** C10.  On every model the constructor returns, and for every argument
    [x], the posterior [cdf] raises [NameError] on [sig2]: the name is
    neither a parameter nor assigned, nor a global or a builtin. *)
Theorem cdf_raises_NameError
    (BayesModel_init : string -> result unit) (name : string)
    (l v a b : Qc) (mdl : NIG.NormalInverseGammaModel.t) (x : pyobj) :
  NIG.NormalInverseGammaModel.init BayesModel_init name l v a b = Ok mdl ->
  NIG.NormalInverseGammaModel.cdf mdl x = Raise (NameError "sig2").
Proof.
  intros Hinit.
  destruct (NormalInverseGammaModel_init_Ok _ _ _ _ _ _ _ Hinit)
    as (-> & Hv & Ha & Hb).
  unfold NIG.NormalInverseGammaModel.cdf, NIG.NormalInverseGammaModel.posterior.
  cbn [NIG.NormalInverseGammaModel._loc_posterior
       NIG.NormalInverseGammaModel._variance_scale_posterior
       NIG.NormalInverseGammaModel._shape_posterior
       NIG.NormalInverseGammaModel._scale_posterior].
  resolve_names.
  rewrite (NormalInverseGamma_init_pos l v a b Hv Ha Hb).
  resolve_names. reflexivity.
Qed.

(** ** Sampling *)

Lemma M_bind_Ok {A B : Type} (c : M A) (k : A -> M B) (w w' : world) (a : A) :
  c w = (Ok a, w') -> (c ≫= k) w = k a w'.
Proof.
  intros E. unfold mbind, M_bind. rewrite E. reflexivity.
Qed.

(** A draw with an integer seed does not read the world: it returns the
    same rows from every world, leaves numpy's generator alone, and
    requests two draws, both with that seed. *)
Lemma rvs_seeded (d : NIG.NormalInverseGamma.t) (size : nat) (seed : Z) :
  exists (data : list (Qc * Qc)) (sd : list Qc),
    length data = size /\
    forall w : world,
      NIG.NormalInverseGamma.rvs d size (Some seed) w =
      (Ok data,
       mkWorld (np_random w)
         (draws w ++
          [ DrawInvGamma (NIG.NormalInverseGamma.shape d)
              (NIG.NormalInverseGamma.scale d) size (Some seed);
            DrawNorm (NIG.NormalInverseGamma.loc d) sd size (Some seed) ])).
Proof.
  set (a := NIG.NormalInverseGamma.shape d).
  set (b := NIG.NormalInverseGamma.scale d).
  set (sig2 := (invgamma_rvs a b size (RandomState seed)).1).
  set (sd := np_sqrt <$>
               np_div_scalar sig2 (NIG.NormalInverseGamma.variance_scale d)).
  set (x := (norm_rvs (NIG.NormalInverseGamma.loc d) sd size
               (RandomState seed)).1).
  exists (zip x sig2), sd. split.
  - rewrite length_zip_with. unfold x, sig2.
    rewrite norm_rvs_length, invgamma_rvs_length. lia.
  - intros w. unfold NIG.NormalInverseGamma.rvs.
    rewrite global_stats, global_np, !M_bind_lift_Ok.
    unfold mbind, M_bind, rvs_with, mret, M_ret. simpl.
    rewrite <- app_assoc. reflexivity.
Qed.

(** A draw always returns, one row per requested variate. *)
Lemma rvs_returns (d : NIG.NormalInverseGamma.t) (size : nat)
    (random_state : option Z) (w : world) :
  exists (data : list (Qc * Qc)) (w' : world),
    NIG.NormalInverseGamma.rvs d size random_state w = (Ok data, w')
    /\ length data = size.
Proof.
  destruct random_state as [seed|].
  - destruct (rvs_seeded d size seed) as (data & sd & Hlen & Hrun).
    exists data. eexists. split; [apply Hrun|exact Hlen].
  - unfold NIG.NormalInverseGamma.rvs.
    rewrite global_stats, global_np, !M_bind_lift_Ok.
    unfold mbind, M_bind, rvs_with, mret, M_ret. simpl.
    eexists _, _. split; [reflexivity|].
    rewrite length_zip_with, norm_rvs_length, invgamma_rvs_length. lia.
Qed.

Lemma Model_rvs_posterior (mdl : NIG.NormalInverseGammaModel.t)
    (d : NIG.NormalInverseGamma.t) (size : nat) (random_state : option Z)
    (w : world) :
  NIG.NormalInverseGammaModel.posterior mdl = Ok d ->
  NIG.NormalInverseGammaModel.rvs mdl size random_state w
  = NIG.NormalInverseGamma.rvs d size random_state w.
Proof.
  intros E. unfold NIG.NormalInverseGammaModel.rvs.
  rewrite E, M_bind_lift_Ok. reflexivity.
Qed.

(** The code's [np.maximum(other - self - lift, 0).mean()] is the
    specification's empirical loss. *)
Lemma loss_mean_empirical (other self : list Qc) (lift : Qc) :
  NIG.NormalInverseGammaABTest.loss_mean other self lift
  = empirical_loss other self lift.
Proof.
  unfold NIG.NormalInverseGammaABTest.loss_mean, empirical_loss.
  rewrite maximum_sub_zip. apply np_mean_empirical.
Qed.

(** C5.  With the simulation method, a lift [>= 0] and two models with
    valid posteriors, the draws are made (model A first, then model B) and
    [expected_loss] returns, for variant "A", the empirical mean of
    [max(B - A - lift, 0)] over the draws, once for the location column
    and once for the dispersion column; for variant "B" the same with the
    two models exchanged. *)
Theorem expected_loss_MC_is_empirical_mean
    (self : NIG.NormalInverseGammaABTest.t) (lift : Qc) (w : world)
    (dA dB : NIG.NormalInverseGamma.t) :
  0 <= lift ->
  NIG.NormalInverseGammaModel.posterior
    (NIG.NormalInverseGammaABTest.modelA self) = Ok dA ->
  NIG.NormalInverseGammaModel.posterior
    (NIG.NormalInverseGammaABTest.modelB self) = Ok dB ->
  exists (data_A data_B : list (Qc * Qc)) (w1 w2 : world),
    NIG.NormalInverseGamma.rvs dA
      (NIG.NormalInverseGammaABTest.simulations self)
      (NIG.NormalInverseGammaABTest.random_state self) w = (Ok data_A, w1)
    /\ NIG.NormalInverseGamma.rvs dB
      (NIG.NormalInverseGammaABTest.simulations self)
      (NIG.NormalInverseGammaABTest.random_state self) w1 = (Ok data_B, w2)
    /\ length data_A = NIG.NormalInverseGammaABTest.simulations self
    /\ length data_B = NIG.NormalInverseGammaABTest.simulations self
    /\ NIG.NormalInverseGammaABTest.expected_loss self "MC" "A" lift w =
       (Ok (NIG.RetTuple
              [ empirical_loss data_B.*1 data_A.*1 lift;
                empirical_loss data_B.*2 data_A.*2 lift ]), w2)
    /\ NIG.NormalInverseGammaABTest.expected_loss self "MC" "B" lift w =
       (Ok (NIG.RetTuple
              [ empirical_loss data_A.*1 data_B.*1 lift;
                empirical_loss data_A.*2 data_B.*2 lift ]), w2).
Proof.
  intros _ HA HB.
  destruct (rvs_returns dA (NIG.NormalInverseGammaABTest.simulations self)
              (NIG.NormalInverseGammaABTest.random_state self) w)
    as (data_A & w1 & EA & LA).
  destruct (rvs_returns dB (NIG.NormalInverseGammaABTest.simulations self)
              (NIG.NormalInverseGammaABTest.random_state self) w1)
    as (data_B & w2 & EB & LB).
  exists data_A, data_B, w1, w2.
  repeat (split; [assumption|]).
  unfold NIG.NormalInverseGammaABTest.expected_loss.
  rewrite global_check_ab_method, !M_bind_lift_Ok.
  rewrite !check_ab_method_MC, !M_bind_lift_Ok.
  change (String.eqb "MC" "exact") with false. cbv iota.
  rewrite !(M_bind_Ok _ _ w w1 data_A)
    by (rewrite (Model_rvs_posterior _ _ _ _ _ HA); exact EA).
  rewrite !(M_bind_Ok _ _ w1 w2 data_B)
    by (rewrite (Model_rvs_posterior _ _ _ _ _ HB); exact EB).
  rewrite global_np, !M_bind_lift_Ok.
  change (String.eqb "A" "A") with true.
  change (String.eqb "B" "A") with false.
  change (String.eqb "B" "B") with true. cbv iota.
  rewrite !loss_mean_empirical. split; reflexivity.
Qed.

(** C8.  Reproducibility.  With an integer seed and two models with
    valid posteriors, the simulation results of [probability] and of
    [expected_loss] do not depend on the world the call starts from: a
    result [p] (resp. [l]) exists that every call returns, so two calls
    with identical arguments return identical results.  Within a call
    numpy's generator is left alone and four draws are requested, two for
    model A and two for model B, all four with the same seed. *)
Theorem seeded_simulation_is_reproducible
    (self : NIG.NormalInverseGammaABTest.t) (variant : string) (lift : Qc)
    (seed : Z) (dA dB : NIG.NormalInverseGamma.t) :
  NIG.NormalInverseGammaABTest.random_state self = Some seed ->
  NIG.NormalInverseGammaModel.posterior
    (NIG.NormalInverseGammaABTest.modelA self) = Ok dA ->
  NIG.NormalInverseGammaModel.posterior
    (NIG.NormalInverseGammaABTest.modelB self) = Ok dB ->
  exists (p l : NIG.pyret) (sdA sdB : list Qc),
    let n := NIG.NormalInverseGammaABTest.simulations self in
    let calls :=
      [ DrawInvGamma (NIG.NormalInverseGamma.shape dA)
          (NIG.NormalInverseGamma.scale dA) n (Some seed);
        DrawNorm (NIG.NormalInverseGamma.loc dA) sdA n (Some seed);
        DrawInvGamma (NIG.NormalInverseGamma.shape dB)
          (NIG.NormalInverseGamma.scale dB) n (Some seed);
        DrawNorm (NIG.NormalInverseGamma.loc dB) sdB n (Some seed) ] in
    (forall w : world,
       NIG.NormalInverseGammaABTest.probability self "MC" variant lift w
       = (Ok p, mkWorld (np_random w) (draws w ++ calls)))
    /\ (forall w : world,
       NIG.NormalInverseGammaABTest.expected_loss self "MC" variant lift w
       = (Ok l, mkWorld (np_random w) (draws w ++ calls))).
Proof.
  intros Hseed HA HB.
  destruct (rvs_seeded dA (NIG.NormalInverseGammaABTest.simulations self) seed)
    as (data_A & sdA & _ & EA).
  destruct (rvs_seeded dB (NIG.NormalInverseGammaABTest.simulations self) seed)
    as (data_B & sdB & _ & EB).
  eexists _, _, sdA, sdB. cbv zeta. split; intros w.
  - unfold NIG.NormalInverseGammaABTest.probability.
    rewrite global_check_ab_method, !M_bind_lift_Ok.
    rewrite !check_ab_method_MC, !M_bind_lift_Ok.
    change (String.eqb "MC" "exact") with false. cbv iota.
    rewrite Hseed.
    erewrite M_bind_Ok
      by (rewrite (Model_rvs_posterior _ _ _ _ _ HA); apply EA).
    erewrite M_bind_Ok
      by (rewrite (Model_rvs_posterior _ _ _ _ _ HB); apply EB).
    cbn [np_random draws]. rewrite <- app_assoc. cbn [app].
    instantiate (1 :=
      if String.eqb variant "A" then _
      else if String.eqb variant "B" then _ else _).
    destruct (String.eqb variant "A"); [reflexivity|].
    destruct (String.eqb variant "B"); reflexivity.
  - unfold NIG.NormalInverseGammaABTest.expected_loss.
    rewrite global_check_ab_method, !M_bind_lift_Ok.
    rewrite !check_ab_method_MC, !M_bind_lift_Ok.
    change (String.eqb "MC" "exact") with false. cbv iota.
    rewrite Hseed.
    erewrite M_bind_Ok
      by (rewrite (Model_rvs_posterior _ _ _ _ _ HA); apply EA).
    erewrite M_bind_Ok
      by (rewrite (Model_rvs_posterior _ _ _ _ _ HB); apply EB).
    cbn [np_random draws]. rewrite <- app_assoc. cbn [app].
    rewrite global_np, !M_bind_lift_Ok.
    instantiate (1 :=
      if String.eqb variant "A" then _
      else if String.eqb variant "B" then _ else _).
    destruct (String.eqb variant "A"); [reflexivity|].
    destruct (String.eqb variant "B"); reflexivity.
Qed.

End Comparison.

(** On two valid models, with the exact method, variant "A" and no lift,
    [expected_loss] raises nothing. *)
Lemma expected_loss_exact_does_not_raise :
  ~ raises (NIG.NormalInverseGammaABTest.expected_loss
              (Examples.abtest None) "exact" "A" 0 Examples.world0).1.
Proof.
  rewrite expected_loss_exact_0. intros [e He]. discriminate He.
Qed.

Lemma exact_with_lift_is_rejected_witness :
  NIG.NormalInverseGammaABTest.probability
    (Examples.abtest None) "exact" "A" 1 Examples.world0
    = (Raise UnsupportedConfiguration, Examples.world0)
  /\ NIG.NormalInverseGammaABTest.expected_loss
    (Examples.abtest None) "exact" "A" 1 Examples.world0
    = (Raise UnsupportedConfiguration, Examples.world0).
Proof.
  apply (exact_with_lift_is_rejected (Examples.abtest None) "A" 1
           Examples.world0).
  reflexivity.
Defined.

(** ** The theorems at concrete inputs *)


Lemma cdf_raises_NameError_witness :
  NIG.NormalInverseGammaModel.cdf (H := Examples.counter_numeric)
    Examples.model1 (PyFloat 0)
  = Raise (NameError "sig2").
Proof.
  apply (cdf_raises_NameError (fun _ => Ok ()) "A" 0 1 (Qc_of_Z 3) (Qc_of_Z 2)).
  reflexivity.
Defined.

Lemma expected_loss_MC_is_empirical_mean_witness :
  exists (data_A data_B : list (Qc * Qc)) (w2 : world),
    length data_A = 3%nat /\ length data_B = 3%nat
    /\ NIG.NormalInverseGammaABTest.expected_loss
         (Examples.abtest None) "MC" "A" 1 Examples.world0 =
       (Ok (NIG.RetTuple
              [ empirical_loss data_B.*1 data_A.*1 1;
                empirical_loss data_B.*2 data_A.*2 1 ]), w2).
Proof.
  destruct (expected_loss_MC_is_empirical_mean
              (Examples.abtest None) 1 Examples.world0
              (NIG.NormalInverseGamma.mk 0 1 (Qc_of_Z 3) (Qc_of_Z 2))
              (NIG.NormalInverseGamma.mk 1 1 (Qc_of_Z 2) 1))
    as (data_A & data_B & w1 & w2 & _ & _ & LA & LB & EA & _).
  - discriminate.
  - reflexivity.
  - reflexivity.
  - exists data_A, data_B, w2. auto.
Defined.

Lemma seeded_simulation_is_reproducible_witness :
  exists p : NIG.pyret,
    forall w : @world Examples.counter_numeric,
      (NIG.NormalInverseGammaABTest.probability
         (Examples.abtest (Some 7%Z)) "MC" "A" 0 w).1 = Ok p.
Proof.
  destruct (seeded_simulation_is_reproducible (H := Examples.counter_numeric)
              (Examples.abtest (Some 7%Z)) "A" 0 7%Z
              (NIG.NormalInverseGamma.mk 0 1 (Qc_of_Z 3) (Qc_of_Z 2))
              (NIG.NormalInverseGamma.mk 1 1 (Qc_of_Z 2) 1))
    as (p & l & sdA & sdB & Hp & _).
  - reflexivity.
  - reflexivity.
  - reflexivity.
  - exists p. intros w. rewrite Hp. reflexivity.
Defined.


(** * Further properties *)

(** ** Order on the rationals *)

Lemma Qc_this_plus (x y : Qc) : (this (x + y) == this x + this y)%Q.
Proof. unfold Qcplus, Q2Qc. simpl. apply Qred_correct. Qed.

Lemma Qc_this_minus (x y : Qc) : (this (x - y) == this x - this y)%Q.
Proof.
  unfold Qcminus, Qcplus, Qcopp, Q2Qc. simpl.
  rewrite !Qred_correct. reflexivity.
Qed.

Lemma Qc_this_mult (x y : Qc) : (this (x * y) == this x * this y)%Q.
Proof. unfold Qcmult, Q2Qc. simpl. apply Qred_correct. Qed.

Lemma Qc_this_opp (x : Qc) : (this (- x) == - this x)%Q.
Proof. unfold Qcopp, Q2Qc. simpl. apply Qred_correct. Qed.

Lemma Qc_this_of_Z (z : Z) : (this (Qc_of_Z z) == inject_Z z)%Q.
Proof. unfold Qc_of_Z, Q2Qc. simpl. apply Qred_correct. Qed.

Lemma Qc_eq_this (x y : Qc) : x = y <-> (this x == this y)%Q.
Proof. split; [intros ->; reflexivity|apply Qc_is_canon]. Qed.

Ltac qc_push :=
  repeat match goal with
  | H : context [this (_ + _)] |- _ => rewrite Qc_this_plus in H
  | H : context [this (_ - _)] |- _ => rewrite Qc_this_minus in H
  | H : context [this (_ * _)] |- _ => rewrite Qc_this_mult in H
  | H : context [this (- _)] |- _ => rewrite Qc_this_opp in H
  | |- context [this (_ + _)] => rewrite Qc_this_plus
  | |- context [this (_ - _)] => rewrite Qc_this_minus
  | |- context [this (_ * _)] => rewrite Qc_this_mult
  | |- context [this (- _)] => rewrite Qc_this_opp
  end.

Ltac qc_to_Q :=
  repeat match goal with
  | H : @eq Qc _ _ |- _ => apply Qc_eq_this in H
  | H : ~ @eq Qc _ _ |- _ => rewrite Qc_eq_this in H
  end;
  try apply Qc_eq_this;
  unfold Qcle, Qclt in *;
  qc_push;
  change (this 0) with 0%Q in *; change (this 1) with 1%Q in *.

(** Linear (resp. polynomial) arithmetic over [Qc], by transfer to [Q]. *)
Ltac qc_lra := qc_to_Q; lra.
Ltac qc_nra := qc_to_Q; nra.

Lemma Qc_div_mul (a c : Qc) : c <> 0 -> a / c * c = a.
Proof. intros Hc. field. exact Hc. Qed.

Lemma Qc_pos_neq_0 (c : Qc) : 0 < c -> c <> 0.
Proof. intros Hc E. qc_lra. Qed.

Lemma Qc_div_le_iff (a b c : Qc) : 0 < c -> a / c <= b <-> a <= b * c.
Proof.
  intros Hc. pose proof (Qc_div_mul a c (Qc_pos_neq_0 c Hc)) as E.
  split; intros Hle.
  - rewrite <- E. apply Qcmult_le_compat_r; [exact Hle|].
    apply Qclt_le_weak, Hc.
  - apply (Qcmult_lt_0_le_reg_r _ _ c Hc). rewrite E. exact Hle.
Qed.

Lemma Qc_le_div_iff (a b c : Qc) : 0 < c -> b <= a / c <-> b * c <= a.
Proof.
  intros Hc. pose proof (Qc_div_mul a c (Qc_pos_neq_0 c Hc)) as E.
  split; intros Hle.
  - rewrite <- E. apply Qcmult_le_compat_r; [exact Hle|].
    apply Qclt_le_weak, Hc.
  - apply (Qcmult_lt_0_le_reg_r _ _ c Hc). rewrite E. exact Hle.
Qed.

Lemma Qc_div_le_mono (a b c : Qc) : 0 < c -> a <= b -> a / c <= b / c.
Proof.
  intros Hc Hab. apply Qc_div_le_iff; [exact Hc|].
  rewrite Qc_div_mul by (apply Qc_pos_neq_0, Hc). exact Hab.
Qed.

Lemma Qc_of_Z_le (x y : Z) : (x <= y)%Z -> Qc_of_Z x <= Qc_of_Z y.
Proof.
  intros Hxy. unfold Qcle. rewrite !Qc_this_of_Z.
  rewrite <- Zle_Qle. exact Hxy.
Qed.

Lemma Qc_of_Z_lt (x y : Z) : (x < y)%Z -> Qc_of_Z x < Qc_of_Z y.
Proof.
  intros Hxy. unfold Qclt. rewrite !Qc_this_of_Z.
  rewrite <- Zlt_Qlt. exact Hxy.
Qed.

Lemma Qc_of_Z_1 : Qc_of_Z 1 = 1.
Proof. apply Qc_is_canon. reflexivity. Qed.

(** ** Binomial model: batches *)

(** X1.  Streaming, in the range where nothing overflows: for integer
    hyperparameters [alpha, beta >= 0] and any sequence of non-empty
    batches of observations between [0] and [m], when [alpha] and [beta]
    each leave room in [int64] for [m] times the total number of
    observations, one [update] per batch leaves the model that a single
    [update] with the concatenation of the batches leaves. *)
Theorem update_each_concat (self : Binomial.BinomialModel) (a b : Z)
    (batches : list (list Z)) :
  Binomial._alpha_posterior self = IntV a ->
  Binomial._beta_posterior self = IntV b ->
  batches <> [] ->
  Forall (fun D => D <> []) batches ->
  Forall (fun x => (0 <= x <= Binomial.m self)%Z) (concat batches) ->
  (0 <= a)%Z -> (0 <= b)%Z ->
  (a + Binomial.m self * Z.of_nat (length (concat batches)) <= int64_max)%Z ->
  (b + Binomial.m self * Z.of_nat (length (concat batches)) <= int64_max)%Z ->
  update_each self batches = Binomial.update self (concat batches)
  /\ (update_each self batches).1 = Ok ().
Proof.
  intros Ha Hb Hnb Hne Hsupp Ha0 Hb0 Hamax Hbmax.
  assert (Hc : concat batches <> []).
  { destruct batches as [|D rest]; [congruence|].
    apply Forall_cons in Hne as [HD _]. cbn [concat].
    destruct D; [congruence|discriminate]. }
  rewrite (update_each_in_range batches self a b) by assumption.
  rewrite (update_in_range self a b (concat batches)) by assumption.
  split; reflexivity.
Qed.

Lemma update_each_concat_witness :
  update_each Examples.binomial10 [[3%Z]; [7%Z; 2%Z]; [10%Z]]
  = Binomial.update Examples.binomial10 [3%Z; 7%Z; 2%Z; 10%Z].
Proof.
  apply (update_each_concat Examples.binomial10 1 1
           [[3%Z]; [7%Z; 2%Z]; [10%Z]]);
    try reflexivity; try discriminate.
  - repeat constructor; discriminate.
  - repeat constructor; simpl; lia.
Defined.

Lemma np_sum_Permutation (d1 d2 : list Z) :
  d1 ≡ₚ d2 -> Binomial.np_sum d1 = Binomial.np_sum d2.
Proof.
  intros Hp. destruct d1 as [|x d1].
  - apply Permutation_nil_l in Hp. subst. reflexivity.
  - destruct d2 as [|y d2].
    + apply Permutation_nil_r in Hp. discriminate.
    + unfold Binomial.np_sum. rewrite (total_Permutation _ _ Hp).
      reflexivity.
Qed.

(** X2.  The order of the observations inside a batch does not matter:
    two batches that are permutations of one another give the same
    posterior. *)
Theorem update_Permutation (self : Binomial.BinomialModel)
    (data data' : list Z) :
  data ≡ₚ data' -> Binomial.update self data = Binomial.update self data'.
Proof.
  intros Hp. unfold Binomial.update.
  rewrite (np_sum_Permutation _ _ Hp), (Permutation_length Hp).
  reflexivity.
Qed.

Lemma update_Permutation_witness :
  Binomial.update Examples.binomial10 [3%Z; 7%Z]
  = Binomial.update Examples.binomial10 [7%Z; 3%Z].
Proof.
  apply (update_Permutation Examples.binomial10 [3%Z; 7%Z] [7%Z; 3%Z]).
  apply perm_swap.
Defined.

(** X3.  In the same range (integer hyperparameters [>= 0], a non-empty
    batch of observations between [0] and [m], room in [int64] for [m]
    times the batch length) [update] returns normally, decreases neither
    hyperparameter, and their sum grows by exactly [m] times the batch
    length. *)
Theorem update_in_support (self : Binomial.BinomialModel) (a b : Z)
    (data : list Z) :
  Binomial._alpha_posterior self = IntV a ->
  Binomial._beta_posterior self = IntV b ->
  data <> [] ->
  Forall (fun x => (0 <= x <= Binomial.m self)%Z) data ->
  (0 <= a)%Z -> (0 <= b)%Z ->
  (a + Binomial.m self * Z.of_nat (length data) <= int64_max)%Z ->
  (b + Binomial.m self * Z.of_nat (length data) <= int64_max)%Z ->
  exists a' b' : Z,
    Binomial.update self data =
      (Ok (), Binomial.mkBinomialModel (Binomial.m self) (IntV a') (IntV b'))
    /\ (a <= a')%Z /\ (b <= b')%Z
    /\ (a' + b' = a + b + Binomial.m self * Z.of_nat (length data))%Z.
Proof.
  intros Ha Hb Hne Hsupp Ha0 Hb0 Hamax Hbmax.
  pose proof (total_bounds _ _ Hsupp) as [Ht0 Htm].
  eexists _, _. split; [apply (update_in_range self a b data); assumption|].
  lia.
Qed.

Lemma update_in_support_witness :
  exists a' b' : Z,
    Binomial.update Examples.binomial10 [3%Z; 7%Z] =
      (Ok (), Binomial.mkBinomialModel 10 (IntV a') (IntV b'))
    /\ (1 <= a')%Z /\ (1 <= b')%Z.
Proof.
  destruct (update_in_support Examples.binomial10 1 1 [3%Z; 7%Z])
    as (a' & b' & E & Ha & Hb & _);
    try reflexivity; try discriminate.
  - repeat constructor; simpl; lia.
  - exists a', b'. auto.
Defined.

(** ** Normal-inverse-gamma distribution: construction and moments *)

Lemma Qc_div_lt_iff (a b c : Qc) : 0 < c -> a / c < b <-> a < b * c.
Proof.
  intros Hc. split; intros Hlt.
  - apply Qcnot_le_lt. intros Hle.
    apply (Qclt_not_le _ _ Hlt), Qc_le_div_iff; assumption.
  - apply Qcnot_le_lt. intros Hle.
    apply (Qclt_not_le _ _ Hlt), Qc_le_div_iff; assumption.
Qed.

Lemma Qc_lt_div_iff (a b c : Qc) : 0 < c -> b < a / c <-> b * c < a.
Proof.
  intros Hc. split; intros Hlt.
  - apply Qcnot_le_lt. intros Hle.
    apply (Qclt_not_le _ _ Hlt), Qc_div_le_iff; assumption.
  - apply Qcnot_le_lt. intros Hle.
    apply (Qclt_not_le _ _ Hlt), Qc_div_le_iff; assumption.
Qed.

Lemma Qc_div_pos (a c : Qc) : 0 < a -> 0 < c -> 0 < a / c.
Proof.
  intros Ha Hc. apply Qc_lt_div_iff; [exact Hc|].
  rewrite Qcmult_0_l. exact Ha.
Qed.

Lemma NormalInverseGamma_init_invalid (l v a b : Qc) :
  v <= 0 \/ a <= 0 \/ b <= 0 ->
  exists msg : string,
    NIG.NormalInverseGamma.init l v a b = Raise (ValueError msg).
Proof.
  intros Hbad. unfold NIG.NormalInverseGamma.init.
  cbn [NIG.NormalInverseGamma.variance_scale
       NIG.NormalInverseGamma.shape NIG.NormalInverseGamma.scale].
  destruct (Qc_leb v 0) eqn:Ev; [resolve_names; eexists; reflexivity|].
  destruct (Qc_leb a 0) eqn:Ea; [resolve_names; eexists; reflexivity|].
  destruct (Qc_leb b 0) eqn:Eb; [resolve_names; eexists; reflexivity|].
  apply Qc_leb_gt in Ev, Ea, Eb. exfalso.
  destruct Hbad as [Hle|[Hle|Hle]];
    eapply Qcle_not_lt; eassumption.
Qed.

(** [mean] and [var] on positive parameters, with the tests of the code
    left as they are. *)
Lemma mean_eq (l v a b : Qc) :
  NIG.NormalInverseGamma.mean (NIG.NormalInverseGamma.mk l v a b)
  = Ok (Fin l, if Qc_ltb 1 a then Fin (b / (a - 1)) else NaN).
Proof.
  unfold NIG.NormalInverseGamma.mean.
  cbn [NIG.NormalInverseGamma.loc NIG.NormalInverseGamma.shape
       NIG.NormalInverseGamma.scale].
  destruct (Qc_ltb 1 a) eqn:E1.
  - apply Qc_ltb_lt in E1.
    rewrite py_div_nonzero by (apply Qc_lt_minus_pos, E1). reflexivity.
  - resolve_names. reflexivity.
Qed.

Lemma py_pow2_in_range (x : Qc) :
  x * x < Qc_of_Z float_overflow_bound -> py_pow2 x = Ok (x * x).
Proof.
  intros Hx. unfold py_pow2. apply Qc_leb_gt in Hx. rewrite Hx. reflexivity.
Qed.

Lemma var_eq (l v a b : Qc) :
  0 < v ->
  b * b < Qc_of_Z float_overflow_bound ->
  (a - 1) * (a - 1) < Qc_of_Z float_overflow_bound ->
  NIG.NormalInverseGamma.var (NIG.NormalInverseGamma.mk l v a b)
  = Ok (if Qc_ltb 1 a then Fin (b / (a - 1) / v) else NaN,
        if Qc_ltb 2 a
        then Fin (b * b / ((a - 1) * (a - 1)) / (a - 2)) else NaN).
Proof.
  intros Hv Hb2 Ha2. unfold NIG.NormalInverseGamma.var.
  cbn [NIG.NormalInverseGamma.variance_scale NIG.NormalInverseGamma.shape
       NIG.NormalInverseGamma.scale].
  assert (E12 : Qc_ltb 1 a = false -> Qc_ltb 2 a = false).
  { intros E1. apply Qc_ltb_ge in E1. apply Qc_ltb_ge. qc_lra. }
  destruct (Qc_ltb 1 a) eqn:E1.
  - apply Qc_ltb_lt in E1.
    rewrite (py_div_nonzero b (a - 1)) by (apply Qc_lt_minus_pos, E1).
    resolve_names.
    rewrite (py_div_nonzero _ v) by (apply Qc_pos_neq_0, Hv).
    resolve_names.
    destruct (Qc_ltb 2 a) eqn:E2.
    + apply Qc_ltb_lt in E2.
      rewrite (py_pow2_in_range b Hb2), (py_pow2_in_range (a - 1) Ha2).
      resolve_names.
      rewrite py_div_nonzero.
      2:{ intros E. apply Qcmult_integral in E.
          destruct E as [E|E]; exact (Qc_lt_minus_pos _ _ E1 E). }
      resolve_names.
      rewrite py_div_nonzero by (apply Qc_lt_minus_pos, E2).
      reflexivity.
    + resolve_names. reflexivity.
  - rewrite (E12 eq_refl). resolve_names. reflexivity.
Qed.



Lemma global_tuple : NIG.global "tuple" = Ok (PyRef "tuple").
Proof. reflexivity. Qed.

Section Distribution.
Context `{Numeric}.


(** ** Densities: the input check *)

Lemma check_input_arrays (xs ss : list Qc) :
  NIG.NormalInverseGamma._check_input (PyArray xs) (PyArray ss) =
  if negb (Nat.eqb (length xs) (length ss)) then
    Raise (ValueError "Input variables with inconsistent dimensions.")
  else if existsb (fun s => Qc_leb s 0) ss then
    Raise (ValueError "sig2 must be > 0.")
  else Ok (xs, ss).
Proof.
  unfold NIG.NormalInverseGamma._check_input. resolve_names.
  cbn [as_array np_shape]. resolve_names.
  destruct (Nat.eqb_spec (length xs) (length ss)) as [El|El]; cbn [negb].
  - rewrite bool_decide_eq_true_2 by (rewrite El; reflexivity). cbn [negb].
    destruct (existsb (fun s => Qc_leb s 0) ss); reflexivity.
  - rewrite bool_decide_eq_false_2 by (intros [= E]; contradiction).
    reflexivity.
Qed.

(** X9.  The four density functions refuse, with the same [ValueError],
    two arrays of different lengths and any array of dispersions holding a
    value [<= 0]; nothing is evaluated on such input. *)
Theorem densities_reject_bad_input
    (d : NIG.NormalInverseGamma.t) (xs ss : list Qc) :
  length xs <> length ss \/ Exists (fun s => s <= 0) ss ->
  exists msg : string,
    NIG.NormalInverseGamma.logpdf d (PyArray xs) (PyArray ss)
      = Raise (ValueError msg)
    /\ NIG.NormalInverseGamma.pdf d (PyArray xs) (PyArray ss)
      = Raise (ValueError msg)
    /\ NIG.NormalInverseGamma.logcdf d (PyArray xs) (PyArray ss)
      = Raise (ValueError msg)
    /\ NIG.NormalInverseGamma.cdf d (PyArray xs) (PyArray ss)
      = Raise (ValueError msg).
Proof.
  intros Hbad.
  assert (exists msg : string,
            NIG.NormalInverseGamma._check_input (PyArray xs) (PyArray ss)
            = Raise (ValueError msg)) as [msg E].
  { rewrite check_input_arrays.
    destruct (Nat.eqb (length xs) (length ss)) eqn:El; cbn [negb];
      [|eexists; reflexivity].
    apply Nat.eqb_eq in El.
    destruct Hbad as [Hne|Hex]; [contradiction|].
    assert (existsb (fun s => Qc_leb s 0) ss = true) as ->;
      [|eexists; reflexivity].
    apply existsb_exists. apply Exists_exists in Hex as (s & Hin & Hs).
    exists s. split; [apply list_elem_of_In, Hin|apply Qc_leb_le, Hs]. }
  exists msg.
  unfold NIG.NormalInverseGamma.pdf, NIG.NormalInverseGamma.cdf,
    NIG.NormalInverseGamma.logpdf, NIG.NormalInverseGamma.logcdf.
  rewrite E, global_np. resolve_names. auto.
Qed.


End Distribution.

(** ** Normal-inverse-gamma model *)

(** X11.  [NormalInverseGammaModel.__init__] passes on whatever the base
    constructor raises; otherwise positive [variance_scale], [shape] and
    [scale] are accepted and the model returned has its posterior equal to
    its prior, and a [variance_scale], [shape] or [scale] that is [<= 0]
    is refused with [ValueError]. *)
Theorem NormalInverseGammaModel_init_checks
    (BayesModel_init : string -> result unit) (name : string)
    (l v a b : Qc) :
  match BayesModel_init name with
  | inl e =>
    NIG.NormalInverseGammaModel.init BayesModel_init name l v a b = Raise e
  | inr _ =>
    (0 < v -> 0 < a -> 0 < b ->
     NIG.NormalInverseGammaModel.init BayesModel_init name l v a b
     = Ok (NIG.NormalInverseGammaModel.mk name l v a b l v a b))
    /\ (v <= 0 \/ a <= 0 \/ b <= 0 ->
        exists msg : string,
          NIG.NormalInverseGammaModel.init BayesModel_init name l v a b
          = Raise (ValueError msg))
  end.
Proof.
  unfold NIG.NormalInverseGammaModel.init. resolve_names.
  destruct (BayesModel_init name) as [e|[]]; [reflexivity|].
  resolve_names.
  cbn [NIG.NormalInverseGammaModel.variance_scale
       NIG.NormalInverseGammaModel.shape NIG.NormalInverseGammaModel.scale].
  split.
  - intros Hv Ha Hb. apply Qc_leb_gt in Hv, Ha, Hb.
    rewrite Hv, Ha, Hb. reflexivity.
  - intros Hbad.
    destruct (Qc_leb v 0) eqn:Ev; [resolve_names; eexists; reflexivity|].
    destruct (Qc_leb a 0) eqn:Ea; [resolve_names; eexists; reflexivity|].
    destruct (Qc_leb b 0) eqn:Eb; [resolve_names; eexists; reflexivity|].
    apply Qc_leb_gt in Ev, Ea, Eb. exfalso.
    destruct Hbad as [Hle|[Hle|Hle]]; eapply Qcle_not_lt; eassumption.
Qed.

Lemma posterior_invalid (mdl : NIG.NormalInverseGammaModel.t) :
  NIG.NormalInverseGammaModel._variance_scale_posterior mdl <= 0
  \/ NIG.NormalInverseGammaModel._shape_posterior mdl <= 0
  \/ NIG.NormalInverseGammaModel._scale_posterior mdl <= 0 ->
  exists msg : string,
    NIG.NormalInverseGammaModel.posterior mdl = Raise (ValueError msg).
Proof.
  intros Hbad. unfold NIG.NormalInverseGammaModel.posterior.
  resolve_names. apply NormalInverseGamma_init_invalid, Hbad.
Qed.

Lemma posterior_of_init
    (BayesModel_init : string -> result unit) (name : string)
    (l v a b : Qc) (mdl : NIG.NormalInverseGammaModel.t) :
  NIG.NormalInverseGammaModel.init BayesModel_init name l v a b = Ok mdl ->
  NIG.NormalInverseGammaModel.posterior mdl
  = Ok (NIG.NormalInverseGamma.mk l v a b) /\ 0 < v /\ 0 < a /\ 0 < b.
Proof.
  intros Hinit.
  destruct (NormalInverseGammaModel_init_Ok _ _ _ _ _ _ _ Hinit)
    as (-> & Hv & Ha & Hb).
  split; [|auto]. unfold NIG.NormalInverseGammaModel.posterior.
  cbn [NIG.NormalInverseGammaModel._loc_posterior
       NIG.NormalInverseGammaModel._variance_scale_posterior
       NIG.NormalInverseGammaModel._shape_posterior
       NIG.NormalInverseGammaModel._scale_posterior].
  resolve_names. apply NormalInverseGamma_init_pos; assumption.
Qed.

Section Model.
Context `{Numeric}.


(** X13.  A model whose posterior [variance_scale], [shape] or [scale] is
    not positive is unusable: [mean], [var], [std], [pdf] and [cdf] raise
    [ValueError], and [rvs] raises it before any draw is requested, the
    generator untouched. *)
Theorem invalid_posterior_raises_ValueError
    (mdl : NIG.NormalInverseGammaModel.t) (x sig2 : pyobj) (size : nat)
    (random_state : option Z) (w : world) :
  NIG.NormalInverseGammaModel._variance_scale_posterior mdl <= 0
  \/ NIG.NormalInverseGammaModel._shape_posterior mdl <= 0
  \/ NIG.NormalInverseGammaModel._scale_posterior mdl <= 0 ->
  exists msg : string,
    NIG.NormalInverseGammaModel.mean mdl = Raise (ValueError msg)
    /\ NIG.NormalInverseGammaModel.var mdl = Raise (ValueError msg)
    /\ NIG.NormalInverseGammaModel.std mdl = Raise (ValueError msg)
    /\ NIG.NormalInverseGammaModel.pdf mdl x sig2 = Raise (ValueError msg)
    /\ NIG.NormalInverseGammaModel.cdf mdl x = Raise (ValueError msg)
    /\ NIG.NormalInverseGammaModel.rvs mdl size random_state w
       = (Raise (ValueError msg), w).
Proof.
  intros Hbad. destruct (posterior_invalid mdl Hbad) as [msg E].
  exists msg.
  unfold NIG.NormalInverseGammaModel.mean, NIG.NormalInverseGammaModel.var,
    NIG.NormalInverseGammaModel.std, NIG.NormalInverseGammaModel.pdf,
    NIG.NormalInverseGammaModel.cdf, NIG.NormalInverseGammaModel.rvs.
  rewrite E, M_bind_lift_Raise. resolve_names. auto 10.
Qed.

(** X14.  [rvs] returns one row per requested variate, whatever the
    [random_state].  It requests two draws of that size, the dispersion
    first and then the location, whose standard deviations are computed
    from the dispersions just drawn (the second column of the result);
    with an integer seed numpy's global generator is left as it was. *)
Theorem rvs_rows_and_order (d : NIG.NormalInverseGamma.t) (size : nat)
    (random_state : option Z) (w : world) :
  exists (data : list (Qc * Qc)) (w' : world),
    NIG.NormalInverseGamma.rvs d size random_state w = (Ok data, w')
    /\ length data = size
    /\ draws w' = draws w ++
         [ DrawInvGamma (NIG.NormalInverseGamma.shape d)
             (NIG.NormalInverseGamma.scale d) size random_state;
           DrawNorm (NIG.NormalInverseGamma.loc d)
             (np_sqrt <$> np_div_scalar data.*2
                (NIG.NormalInverseGamma.variance_scale d))
             size random_state ]
    /\ (is_Some random_state -> np_random w' = np_random w).
Proof.
  unfold NIG.NormalInverseGamma.rvs.
  rewrite global_stats, global_np, !M_bind_lift_Ok.
  unfold mbind, M_bind, rvs_with, mret, M_ret.
  destruct random_state as [seed|]; cbn [fst snd np_random draws];
    eexists _, _; (split; [reflexivity|]); cbn [draws np_random];
    rewrite length_zip_with, snd_zip
      by (rewrite norm_rvs_length, invgamma_rvs_length; lia);
    rewrite norm_rvs_length, invgamma_rvs_length, <- app_assoc;
    (split; [lia|]); (split; [reflexivity|]).
  - reflexivity.
  - intros [? [=]].
Qed.

End Model.

(** ** Means of simulated arrays *)

Lemma Qc_sum_fmap_le {A : Type} (f g : A -> Qc) (l : list A) :
  (forall a, f a <= g a) -> Qc_sum (f <$> l) <= Qc_sum (g <$> l).
Proof.
  intros Hfg. induction l as [|a l IH]; cbn [fmap list_fmap Qc_sum foldr].
  - apply Qcle_refl.
  - fold (Qc_sum (f <$> l)). fold (Qc_sum (g <$> l)).
    apply Qcplus_le_compat; [apply Hfg|exact IH].
Qed.

Lemma Qc_sum_fmap_plus {A : Type} (f g : A -> Qc) (l : list A) :
  Qc_sum ((fun a => f a + g a) <$> l) = Qc_sum (f <$> l) + Qc_sum (g <$> l).
Proof.
  induction l as [|a l IH]; cbn [fmap list_fmap Qc_sum foldr].
  - ring.
  - fold (Qc_sum ((fun a => f a + g a) <$> l)).
    fold (Qc_sum (f <$> l)). fold (Qc_sum (g <$> l)). rewrite IH. ring.
Qed.

Lemma Qc_sum_fmap_const {A : Type} (c : Qc) (l : list A) :
  Qc_sum ((fun _ => c) <$> l) = c * Qc_of_nat (length l).
Proof.
  induction l as [|a l IH]; cbn [fmap list_fmap Qc_sum foldr length].
  - change (Qc_of_nat 0) with (Qc_of_Z 0). rewrite Qc_of_Z_0. ring.
  - fold (Qc_sum ((fun _ => c) <$> l)). rewrite IH.
    unfold Qc_of_nat. rewrite Nat2Z.inj_succ, <- Z.add_1_l, Qc_of_Z_add.
    rewrite Qc_of_Z_1. ring.
Qed.

Lemma Qc_of_nat_pos (n : nat) : (0 < n)%nat -> 0 < Qc_of_nat n.
Proof.
  intros Hn. unfold Qc_of_nat. rewrite <- Qc_of_Z_0.
  apply Qc_of_Z_lt. lia.
Qed.

Lemma np_mean_fmap {A : Type} (f : A -> Qc) (l : list A) :
  l <> [] ->
  np_mean (f <$> l) = Fin (Qc_sum (f <$> l) / Qc_of_nat (length l)).
Proof.
  destruct l as [|a l]; [congruence|]. intros _.
  unfold np_mean. change (f <$> a :: l) with (f a :: (f <$> l)).
  cbn [length]. rewrite length_fmap. reflexivity.
Qed.

(** The code's elementwise expressions, read row by row. *)
Lemma np_gt_add_zip (xs ys : list Qc) (lift : Qc) :
  np_mean_bool (np_gt xs (np_add_scalar ys lift))
  = np_mean ((fun p : Qc * Qc => if Qc_ltb (p.2 + lift) p.1 then 1 else 0)
             <$> zip xs ys).
Proof.
  unfold np_mean_bool, np_gt, np_add_scalar. f_equal.
  revert ys. induction xs as [|x xs IH]; intros [|y ys]; try reflexivity.
  cbn [zip_with fmap list_fmap]. f_equal. apply IH.
Qed.

Lemma loss_mean_zip (other self : list Qc) (lift : Qc) :
  NIG.NormalInverseGammaABTest.loss_mean other self lift
  = np_mean ((fun d : Qc * Qc => Qc_max (d.1 - d.2 - lift) 0)
             <$> zip other self).
Proof.
  unfold NIG.NormalInverseGammaABTest.loss_mean.
  rewrite maximum_sub_zip. reflexivity.
Qed.

Lemma zip_swap_fmap {B : Type} (f : Qc * Qc -> B) (xs ys : list Qc) :
  f <$> zip ys xs = (fun p : Qc * Qc => f (p.2, p.1)) <$> zip xs ys.
Proof.
  revert ys. induction xs as [|x xs IH]; intros [|y ys]; try reflexivity.
  cbn [zip_with fmap list_fmap]. f_equal. apply IH.
Qed.

Lemma zip_nonempty (xs ys : list Qc) (n : nat) :
  length xs = n -> length ys = n -> (0 < n)%nat -> zip xs ys <> [].
Proof.
  destruct xs, ys; simpl; intros; try lia. discriminate.
Qed.

Lemma Qc_max_0_cases (x : Qc) :
  (x <= 0 /\ Qc_max x 0 = 0) \/ (0 < x /\ Qc_max x 0 = x).
Proof.
  unfold Qc_max. destruct (decide (x <= 0)) as [Hle|Hgt]; [left; auto|].
  right. split; [apply Qcnot_le_lt, Hgt|reflexivity].
Qed.

Lemma zip_length_eq (xs ys : list Qc) (n : nat) :
  length xs = n -> length ys = n -> length (zip xs ys) = n.
Proof. intros Hx Hy. rewrite length_zip_with. lia. Qed.

Lemma rate_Fin {A : Type} (f : A -> Qc) (l : list A) (n : nat) :
  length l = n -> (0 < n)%nat ->
  np_mean (f <$> l) = Fin (Qc_sum (f <$> l) / Qc_of_nat n).
Proof.
  intros Hl Hn. rewrite np_mean_fmap, Hl; [reflexivity|].
  destruct l; [simpl in Hl; lia|discriminate].
Qed.

Lemma exceed_rate_range (xs ys : list Qc) (lift : Qc) (n : nat) :
  length xs = n -> length ys = n -> (0 < n)%nat ->
  exists q : Qc, exceed_rate xs ys lift = Fin q /\ 0 <= q <= 1.
Proof.
  intros Hx Hy Hn. pose proof (zip_length_eq _ _ _ Hx Hy) as Hz.
  pose proof (Qc_of_nat_pos n Hn) as HN.
  unfold exceed_rate. rewrite (rate_Fin _ _ n Hz Hn).
  eexists. split; [reflexivity|].
  set (f := fun p : Qc * Qc => if Qc_ltb (p.2 + lift) p.1 then 1 else 0).
  assert (H0 : forall p, (fun _ => 0) p <= f p).
  { intros p. unfold f. destruct (Qc_ltb _ _); discriminate. }
  assert (H1 : forall p, f p <= (fun _ => 1) p).
  { intros p. unfold f. destruct (Qc_ltb _ _); discriminate. }
  pose proof (Qc_sum_fmap_le _ _ (zip xs ys) H0) as L0.
  pose proof (Qc_sum_fmap_le _ _ (zip xs ys) H1) as L1.
  rewrite Qc_sum_fmap_const, Hz in L0, L1.
  split.
  - apply Qc_le_div_iff; [exact HN|]. rewrite Qcmult_0_l in *. exact L0.
  - apply Qc_div_le_iff; [exact HN|]. exact L1.
Qed.

Lemma loss_rate_nonneg (other self : list Qc) (lift : Qc) (n : nat) :
  length other = n -> length self = n -> (0 < n)%nat ->
  exists q : Qc, loss_rate other self lift = Fin q /\ 0 <= q.
Proof.
  intros Hx Hy Hn. pose proof (zip_length_eq _ _ _ Hx Hy) as Hz.
  pose proof (Qc_of_nat_pos n Hn) as HN.
  unfold loss_rate. rewrite (rate_Fin _ _ n Hz Hn).
  eexists. split; [reflexivity|].
  set (f := fun d : Qc * Qc => Qc_max (d.1 - d.2 - lift) 0).
  assert (H0 : forall p, (fun _ => 0) p <= f p).
  { intros p. unfold f.
    destruct (Qc_max_0_cases (p.1 - p.2 - lift)) as [[_ ->]|[Hp ->]];
      [apply Qcle_refl|apply Qclt_le_weak, Hp]. }
  pose proof (Qc_sum_fmap_le _ _ (zip other self) H0) as L0.
  rewrite Qc_sum_fmap_const, Hz in L0.
  apply Qc_le_div_iff; [exact HN|]. rewrite Qcmult_0_l in *. exact L0.
Qed.

Lemma rates_no_draws (xs ys : list Qc) (lift : Qc) :
  length xs = 0%nat ->
  exceed_rate xs ys lift = NaN /\ loss_rate xs ys lift = NaN.
Proof.
  intros Hx. destruct xs; [|discriminate]. split; reflexivity.
Qed.

Lemma Qc_div_plus (a b c : Qc) : c <> 0 -> a / c + b / c = (a + b) / c.
Proof. intros Hc. field. exact Hc. Qed.

Lemma exceed_rate_exclusive (xs ys : list Qc) (lift : Qc) (n : nat) :
  length xs = n -> length ys = n -> (0 < n)%nat -> 0 <= lift ->
  exists p q : Qc,
    exceed_rate xs ys lift = Fin p /\ exceed_rate ys xs lift = Fin q
    /\ p + q <= 1.
Proof.
  intros Hx Hy Hn Hl. pose proof (zip_length_eq _ _ _ Hx Hy) as Hz.
  pose proof (Qc_of_nat_pos n Hn) as HN.
  unfold exceed_rate. rewrite (zip_swap_fmap _ xs ys).
  rewrite !(rate_Fin _ _ n Hz Hn).
  eexists _, _. split; [reflexivity|]. split; [reflexivity|].
  rewrite Qc_div_plus by (apply Qc_pos_neq_0, HN).
  rewrite <- Qc_sum_fmap_plus.
  apply Qc_div_le_iff; [exact HN|]. rewrite Qcmult_1_l, <- Hz.
  rewrite <- (Qcmult_1_l (Qc_of_nat (length (zip xs ys)))).
  rewrite <- (Qc_sum_fmap_const 1 (zip xs ys)).
  apply Qc_sum_fmap_le. intros [x y]. cbn [fst snd].
  destruct (Qc_ltb (y + lift) x) eqn:E1; destruct (Qc_ltb (x + lift) y) eqn:E2;
    try discriminate.
  apply Qc_ltb_lt in E1, E2. exfalso. qc_lra.
Qed.

Lemma exceed_rate_antitone (xs ys : list Qc) (lift1 lift2 : Qc) (n : nat) :
  length xs = n -> length ys = n -> (0 < n)%nat -> lift1 <= lift2 ->
  exists p1 p2 : Qc,
    exceed_rate xs ys lift1 = Fin p1 /\ exceed_rate xs ys lift2 = Fin p2
    /\ p2 <= p1.
Proof.
  intros Hx Hy Hn Hl. pose proof (zip_length_eq _ _ _ Hx Hy) as Hz.
  pose proof (Qc_of_nat_pos n Hn) as HN.
  unfold exceed_rate. rewrite !(rate_Fin _ _ n Hz Hn).
  eexists _, _. split; [reflexivity|]. split; [reflexivity|].
  apply Qc_div_le_mono; [exact HN|].
  apply Qc_sum_fmap_le. intros [x y]. cbn [fst snd].
  destruct (Qc_ltb (y + lift2) x) eqn:E2; destruct (Qc_ltb (y + lift1) x) eqn:E1;
    try discriminate.
  apply Qc_ltb_lt in E2. apply Qc_ltb_ge in E1. exfalso. qc_lra.
Qed.

Lemma loss_rate_antitone (other self : list Qc) (lift1 lift2 : Qc) (n : nat) :
  length other = n -> length self = n -> (0 < n)%nat -> lift1 <= lift2 ->
  exists l1 l2 : Qc,
    loss_rate other self lift1 = Fin l1 /\ loss_rate other self lift2 = Fin l2
    /\ l2 <= l1.
Proof.
  intros Hx Hy Hn Hl. pose proof (zip_length_eq _ _ _ Hx Hy) as Hz.
  pose proof (Qc_of_nat_pos n Hn) as HN.
  unfold loss_rate. rewrite !(rate_Fin _ _ n Hz Hn).
  eexists _, _. split; [reflexivity|]. split; [reflexivity|].
  apply Qc_div_le_mono; [exact HN|].
  apply Qc_sum_fmap_le. intros [x y]. cbn [fst snd].
  destruct (Qc_max_0_cases (x - y - lift1)) as [[H1 ->]|[H1 ->]];
    destruct (Qc_max_0_cases (x - y - lift2)) as [[H2 ->]|[H2 ->]];
    qc_lra.
Qed.

(** ** Simulation results of the comparison *)

Section Simulation.
Context `{Numeric}.

(** One run of the simulation branch from a world [w]: the draws for
    model A, then for model B, and what the two operations return on
    them, for every variant and lift. *)
Lemma MC_run (self : NIG.NormalInverseGammaABTest.t) (w : world)
    (dA dB : NIG.NormalInverseGamma.t) :
  NIG.NormalInverseGammaModel.posterior
    (NIG.NormalInverseGammaABTest.modelA self) = Ok dA ->
  NIG.NormalInverseGammaModel.posterior
    (NIG.NormalInverseGammaABTest.modelB self) = Ok dB ->
  exists (data_A data_B : list (Qc * Qc)) (w1 w2 : world),
    let n := NIG.NormalInverseGammaABTest.simulations self in
    let rs := NIG.NormalInverseGammaABTest.random_state self in
    NIG.NormalInverseGamma.rvs dA n rs w = (Ok data_A, w1)
    /\ NIG.NormalInverseGamma.rvs dB n rs w1 = (Ok data_B, w2)
    /\ length data_A.*1 = n /\ length data_A.*2 = n
    /\ length data_B.*1 = n /\ length data_B.*2 = n
    /\ (forall (variant : string) (lift : Qc),
          NIG.NormalInverseGammaABTest.probability self "MC" variant lift w =
          (Ok (NIG.RetTuple
                 (let pA := [ exceed_rate data_A.*1 data_B.*1 lift;
                              exceed_rate data_A.*2 data_B.*2 lift ] in
                  let pB := [ exceed_rate data_B.*1 data_A.*1 lift;
                              exceed_rate data_B.*2 data_A.*2 lift ] in
                  if String.eqb variant "A" then pA
                  else if String.eqb variant "B" then pB else pA ++ pB)), w2))
    /\ (forall (variant : string) (lift : Qc),
          NIG.NormalInverseGammaABTest.expected_loss self "MC" variant lift w =
          (Ok (NIG.RetTuple
                 (let lA := [ loss_rate data_B.*1 data_A.*1 lift;
                              loss_rate data_B.*2 data_A.*2 lift ] in
                  let lB := [ loss_rate data_A.*1 data_B.*1 lift;
                              loss_rate data_A.*2 data_B.*2 lift ] in
                  if String.eqb variant "A" then lA
                  else if String.eqb variant "B" then lB else lA ++ lB)), w2)).
Proof.
  intros HA HB.
  destruct (rvs_returns dA (NIG.NormalInverseGammaABTest.simulations self)
              (NIG.NormalInverseGammaABTest.random_state self) w)
    as (data_A & w1 & EA & LA).
  destruct (rvs_returns dB (NIG.NormalInverseGammaABTest.simulations self)
              (NIG.NormalInverseGammaABTest.random_state self) w1)
    as (data_B & w2 & EB & LB).
  exists data_A, data_B, w1, w2. cbv zeta.
  rewrite !length_fmap.
  repeat (split; [assumption|]).
  split; intros variant lift.
  - unfold NIG.NormalInverseGammaABTest.probability.
    rewrite global_check_ab_method, !M_bind_lift_Ok.
    rewrite !check_ab_method_MC, !M_bind_lift_Ok.
    change (String.eqb "MC" "exact") with false. cbv iota.
    rewrite (M_bind_Ok _ _ w w1 data_A)
      by (rewrite (Model_rvs_posterior _ _ _ _ _ HA); exact EA).
    rewrite (M_bind_Ok _ _ w1 w2 data_B)
      by (rewrite (Model_rvs_posterior _ _ _ _ _ HB); exact EB).
    rewrite !np_gt_add_zip. unfold exceed_rate.
    destruct (String.eqb variant "A"); [reflexivity|].
    destruct (String.eqb variant "B"); reflexivity.
  - unfold NIG.NormalInverseGammaABTest.expected_loss.
    rewrite global_check_ab_method, !M_bind_lift_Ok.
    rewrite !check_ab_method_MC, !M_bind_lift_Ok.
    change (String.eqb "MC" "exact") with false. cbv iota.
    rewrite (M_bind_Ok _ _ w w1 data_A)
      by (rewrite (Model_rvs_posterior _ _ _ _ _ HA); exact EA).
    rewrite (M_bind_Ok _ _ w1 w2 data_B)
      by (rewrite (Model_rvs_posterior _ _ _ _ _ HB); exact EB).
    rewrite global_np, !M_bind_lift_Ok.
    rewrite !loss_mean_zip. unfold loss_rate.
    destruct (String.eqb variant "A"); [reflexivity|].
    destruct (String.eqb variant "B"); reflexivity.
Qed.

Ltac simulate self w dA dB HA HB :=
  let data_A := fresh "data_A" in
  let data_B := fresh "data_B" in
  let w1 := fresh "w1" in
  let w2 := fresh "w2" in
  destruct (MC_run self w dA dB HA HB)
    as (data_A & data_B & w1 & w2 & EA & EB & LA1 & LA2 & LB1 & LB2
        & Hprob & Hloss);
  cbv zeta in EA, EB, LA1, LA2, LB1, LB2, Hprob, Hloss.

Lemma variant_tuple {A : Type} (variant : string) (P : list A -> Prop)
    (a b : list A) :
  P a -> P b -> P (a ++ b) ->
  P (if String.eqb variant "A" then a
     else if String.eqb variant "B" then b else a ++ b).
Proof.
  intros Ha Hb Hab. destruct (String.eqb variant "A"); [exact Ha|].
  destruct (String.eqb variant "B"); assumption.
Qed.

(** X15.  With at least one simulation, every component [probability]
    returns by simulation is a number between 0 and 1, for each documented
    variant and every lift [>= 0]. *)
Theorem probability_MC_in_unit_interval
    (self : NIG.NormalInverseGammaABTest.t) (variant : string) (lift : Qc)
    (w : world) (dA dB : NIG.NormalInverseGamma.t) :
  NIG.NormalInverseGammaModel.posterior
    (NIG.NormalInverseGammaABTest.modelA self) = Ok dA ->
  NIG.NormalInverseGammaModel.posterior
    (NIG.NormalInverseGammaABTest.modelB self) = Ok dB ->
  (0 < NIG.NormalInverseGammaABTest.simulations self)%nat ->
  documented_variant variant -> 0 <= lift ->
  exists (ps : list pyfloat) (w' : world),
    NIG.NormalInverseGammaABTest.probability self "MC" variant lift w
      = (Ok (NIG.RetTuple ps), w')
    /\ Forall (fun p => exists q : Qc, p = Fin q /\ 0 <= q <= 1) ps.
Proof.
  intros HA HB Hn _ _. simulate self w dA dB HA HB.
  eexists _, _. split; [apply Hprob|].
  pose proof (exceed_rate_range _ _ lift _ LA1 LB1 Hn) as R1.
  pose proof (exceed_rate_range _ _ lift _ LA2 LB2 Hn) as R2.
  pose proof (exceed_rate_range _ _ lift _ LB1 LA1 Hn) as R3.
  pose proof (exceed_rate_range _ _ lift _ LB2 LA2 Hn) as R4.
  apply variant_tuple; repeat constructor; assumption.
Qed.


(** X17.  With [simulations = 0] nothing is averaged: both operations
    still return, and every component of the tuple is [NaN]. *)
Theorem no_simulations_gives_nan
    (self : NIG.NormalInverseGammaABTest.t) (variant : string) (lift : Qc)
    (w : world) (dA dB : NIG.NormalInverseGamma.t) :
  NIG.NormalInverseGammaModel.posterior
    (NIG.NormalInverseGammaABTest.modelA self) = Ok dA ->
  NIG.NormalInverseGammaModel.posterior
    (NIG.NormalInverseGammaABTest.modelB self) = Ok dB ->
  NIG.NormalInverseGammaABTest.simulations self = 0%nat ->
  documented_variant variant -> 0 <= lift ->
  exists (ps ls : list pyfloat) (w' : world),
    NIG.NormalInverseGammaABTest.probability self "MC" variant lift w
      = (Ok (NIG.RetTuple ps), w')
    /\ NIG.NormalInverseGammaABTest.expected_loss self "MC" variant lift w
      = (Ok (NIG.RetTuple ls), w')
    /\ Forall (fun p => p = NaN) ps /\ Forall (fun p => p = NaN) ls.
Proof.
  intros HA HB Hn _ _. simulate self w dA dB HA HB.
  rewrite Hn in LA1, LA2, LB1, LB2.
  eexists _, _, _. split; [apply Hprob|]. split; [apply Hloss|].
  destruct (rates_no_draws data_A.*1 data_B.*1 lift LA1) as [-> ->].
  destruct (rates_no_draws data_A.*2 data_B.*2 lift LA2) as [-> ->].
  destruct (rates_no_draws data_B.*1 data_A.*1 lift LB1) as [-> ->].
  destruct (rates_no_draws data_B.*2 data_A.*2 lift LB2) as [-> ->].
  split; apply variant_tuple; repeat constructor.
Qed.

(** X18.  From one starting world, the tuple returned for variant "all"
    is the tuple for "A" followed by the tuple for "B", for [probability]
    and for [expected_loss]; the three calls leave the same world. *)
Theorem variant_all_is_A_then_B
    (self : NIG.NormalInverseGammaABTest.t) (lift : Qc)
    (w : world) (dA dB : NIG.NormalInverseGamma.t) :
  NIG.NormalInverseGammaModel.posterior
    (NIG.NormalInverseGammaABTest.modelA self) = Ok dA ->
  NIG.NormalInverseGammaModel.posterior
    (NIG.NormalInverseGammaABTest.modelB self) = Ok dB ->
  0 <= lift ->
  exists (pa pb la lb : list pyfloat) (w' : world),
    NIG.NormalInverseGammaABTest.probability self "MC" "A" lift w
      = (Ok (NIG.RetTuple pa), w')
    /\ NIG.NormalInverseGammaABTest.probability self "MC" "B" lift w
      = (Ok (NIG.RetTuple pb), w')
    /\ NIG.NormalInverseGammaABTest.probability self "MC" "all" lift w
      = (Ok (NIG.RetTuple (pa ++ pb)), w')
    /\ NIG.NormalInverseGammaABTest.expected_loss self "MC" "A" lift w
      = (Ok (NIG.RetTuple la), w')
    /\ NIG.NormalInverseGammaABTest.expected_loss self "MC" "B" lift w
      = (Ok (NIG.RetTuple lb), w')
    /\ NIG.NormalInverseGammaABTest.expected_loss self "MC" "all" lift w
      = (Ok (NIG.RetTuple (la ++ lb)), w')
    /\ length pa = 2%nat /\ length pb = 2%nat
    /\ length la = 2%nat /\ length lb = 2%nat.
Proof.
  intros HA HB _. simulate self w dA dB HA HB.
  eexists _, _, _, _, _.
  split; [apply (Hprob "A")|]. split; [apply (Hprob "B")|].
  split; [apply (Hprob "all")|].
  split; [apply (Hloss "A")|]. split; [apply (Hloss "B")|].
  split; [apply (Hloss "all")|]. auto.
Qed.

(** X19.  For a lift [>= 0] a row cannot count for both variants, so the
    two simulated probabilities of one component never sum to more than
    one: in the tuple for "all", [P(A > B + lift) + P(B > A + lift) <= 1]
    for the location and for the dispersion. *)
Theorem probability_MC_exclusive
    (self : NIG.NormalInverseGammaABTest.t) (lift : Qc)
    (w : world) (dA dB : NIG.NormalInverseGamma.t) :
  NIG.NormalInverseGammaModel.posterior
    (NIG.NormalInverseGammaABTest.modelA self) = Ok dA ->
  NIG.NormalInverseGammaModel.posterior
    (NIG.NormalInverseGammaABTest.modelB self) = Ok dB ->
  (0 < NIG.NormalInverseGammaABTest.simulations self)%nat ->
  0 <= lift ->
  exists (pA qA pB qB : Qc) (w' : world),
    NIG.NormalInverseGammaABTest.probability self "MC" "all" lift w
      = (Ok (NIG.RetTuple [Fin pA; Fin qA; Fin pB; Fin qB]), w')
    /\ pA + pB <= 1 /\ qA + qB <= 1.
Proof.
  intros HA HB Hn Hl. simulate self w dA dB HA HB.
  destruct (exceed_rate_exclusive _ _ lift _ LA1 LB1 Hn Hl)
    as (pA & pB & E1 & E2 & Hp).
  destruct (exceed_rate_exclusive _ _ lift _ LA2 LB2 Hn Hl)
    as (qA & qB & E3 & E4 & Hq).
  exists pA, qA, pB, qB. eexists. split; [|auto].
  rewrite (Hprob "all" lift). cbn [String.eqb Ascii.eqb Bool.eqb app].
  rewrite E1, E2, E3, E4. reflexivity.
Qed.

(** X20.  From one starting world (the same draws), a larger lift never
    gives a larger simulated probability: componentwise, the tuple for
    [lift2] is below the tuple for [lift1] whenever [lift1 <= lift2]. *)
Theorem probability_MC_antitone_in_lift
    (self : NIG.NormalInverseGammaABTest.t) (lift1 lift2 : Qc)
    (w : world) (dA dB : NIG.NormalInverseGamma.t) :
  NIG.NormalInverseGammaModel.posterior
    (NIG.NormalInverseGammaABTest.modelA self) = Ok dA ->
  NIG.NormalInverseGammaModel.posterior
    (NIG.NormalInverseGammaABTest.modelB self) = Ok dB ->
  (0 < NIG.NormalInverseGammaABTest.simulations self)%nat ->
  0 <= lift1 -> lift1 <= lift2 ->
  exists (ps1 ps2 : list pyfloat) (w' : world),
    NIG.NormalInverseGammaABTest.probability self "MC" "all" lift1 w
      = (Ok (NIG.RetTuple ps1), w')
    /\ NIG.NormalInverseGammaABTest.probability self "MC" "all" lift2 w
      = (Ok (NIG.RetTuple ps2), w')
    /\ length ps1 = 4%nat
    /\ Forall2 (fun p1 p2 => exists q1 q2 : Qc,
                  p1 = Fin q1 /\ p2 = Fin q2 /\ q2 <= q1) ps1 ps2.
Proof.
  intros HA HB Hn _ Hl. simulate self w dA dB HA HB.
  eexists _, _, _. split; [apply (Hprob "all")|].
  split; [apply (Hprob "all")|]. split; [reflexivity|].
  cbn [String.eqb Ascii.eqb Bool.eqb app].
  repeat (apply Forall2_cons; split).
  - apply (exceed_rate_antitone _ _ _ _ _ LA1 LB1 Hn Hl).
  - apply (exceed_rate_antitone _ _ _ _ _ LA2 LB2 Hn Hl).
  - apply (exceed_rate_antitone _ _ _ _ _ LB1 LA1 Hn Hl).
  - apply (exceed_rate_antitone _ _ _ _ _ LB2 LA2 Hn Hl).
  - constructor.
Qed.


End Simulation.

(** ** The further properties at concrete inputs *)


Lemma densities_reject_bad_input_witness :
  exists msg : string,
    NIG.NormalInverseGamma.pdf (H := Examples.counter_numeric)
      (NIG.NormalInverseGamma.mk 0 1 1 1) (PyArray [1]) (PyArray [0])
    = Raise (ValueError msg).
Proof.
  destruct (densities_reject_bad_input (H := Examples.counter_numeric)
              (NIG.NormalInverseGamma.mk 0 1 1 1) [1] [0])
    as (msg & _ & E & _).
  - right. apply Exists_cons_hd. apply Qcle_refl.
  - exists msg. exact E.
Defined.



Lemma invalid_posterior_raises_ValueError_witness :
  exists msg : string,
    NIG.NormalInverseGammaModel.cdf (H := Examples.counter_numeric)
      (NIG.NormalInverseGammaModel.mk "A" 0 1 1 1 0 1 0 1) (PyFloat 0)
    = Raise (ValueError msg).
Proof.
  destruct (invalid_posterior_raises_ValueError
              (H := Examples.counter_numeric)
              (NIG.NormalInverseGammaModel.mk "A" 0 1 1 1 0 1 0 1)
              (PyFloat 0) (PyFloat 1) 1 None Examples.world0)
    as (msg & _ & _ & _ & _ & E & _).
  - right. left. apply Qcle_refl.
  - exists msg. exact E.
Defined.

Lemma probability_MC_in_unit_interval_witness :
  exists (ps : list pyfloat) (w' : world),
    NIG.NormalInverseGammaABTest.probability
      (Examples.abtest None) "MC" "A" 0 Examples.world0
    = (Ok (NIG.RetTuple ps), w')
    /\ Forall (fun p => exists q : Qc, p = Fin q /\ 0 <= q <= 1) ps.
Proof.
  apply (probability_MC_in_unit_interval (Examples.abtest None) "A" 0
           Examples.world0
           (NIG.NormalInverseGamma.mk 0 1 (Qc_of_Z 3) (Qc_of_Z 2))
           (NIG.NormalInverseGamma.mk 1 1 (Qc_of_Z 2) 1)).
  - reflexivity.
  - reflexivity.
  - simpl. lia.
  - left. reflexivity.
  - apply Qcle_refl.
Defined.


Lemma no_simulations_gives_nan_witness :
  exists (ps : list pyfloat) (w' : world),
    NIG.NormalInverseGammaABTest.probability
      (NIG.NormalInverseGammaABTest.mk Examples.model1 Examples.model2 0 None)
      "MC" "all" 0 Examples.world0
    = (Ok (NIG.RetTuple ps), w')
    /\ Forall (fun p => p = NaN) ps.
Proof.
  destruct (no_simulations_gives_nan
              (NIG.NormalInverseGammaABTest.mk
                 Examples.model1 Examples.model2 0 None)
              "all" 0 Examples.world0
              (NIG.NormalInverseGamma.mk 0 1 (Qc_of_Z 3) (Qc_of_Z 2))
              (NIG.NormalInverseGamma.mk 1 1 (Qc_of_Z 2) 1))
    as (ps & ls & w' & E & _ & Hp & _).
  - reflexivity.
  - reflexivity.
  - reflexivity.
  - right. right. reflexivity.
  - apply Qcle_refl.
  - exists ps, w'. auto.
Defined.

Lemma variant_all_is_A_then_B_witness :
  exists (pa pb : list pyfloat) (w' : world),
    NIG.NormalInverseGammaABTest.probability
      (Examples.abtest None) "MC" "all" 0 Examples.world0
    = (Ok (NIG.RetTuple (pa ++ pb)), w')
    /\ length pa = 2%nat /\ length pb = 2%nat.
Proof.
  destruct (variant_all_is_A_then_B (Examples.abtest None) 0 Examples.world0
              (NIG.NormalInverseGamma.mk 0 1 (Qc_of_Z 3) (Qc_of_Z 2))
              (NIG.NormalInverseGamma.mk 1 1 (Qc_of_Z 2) 1))
    as (pa & pb & la & lb & w' & _ & _ & E & _ & _ & _ & Ha & Hb & _).
  - reflexivity.
  - reflexivity.
  - apply Qcle_refl.
  - exists pa, pb, w'. auto.
Defined.

Lemma probability_MC_exclusive_witness :
  exists (pA qA pB qB : Qc) (w' : world),
    NIG.NormalInverseGammaABTest.probability
      (Examples.abtest (Some 7%Z)) "MC" "all" 0 Examples.world0
    = (Ok (NIG.RetTuple [Fin pA; Fin qA; Fin pB; Fin qB]), w')
    /\ pA + pB <= 1 /\ qA + qB <= 1.
Proof.
  apply (probability_MC_exclusive (Examples.abtest (Some 7%Z)) 0
           Examples.world0
           (NIG.NormalInverseGamma.mk 0 1 (Qc_of_Z 3) (Qc_of_Z 2))
           (NIG.NormalInverseGamma.mk 1 1 (Qc_of_Z 2) 1)).
  - reflexivity.
  - reflexivity.
  - simpl. lia.
  - apply Qcle_refl.
Defined.

Lemma probability_MC_antitone_in_lift_witness :
  exists (ps1 ps2 : list pyfloat) (w' : world),
    NIG.NormalInverseGammaABTest.probability
      (Examples.abtest None) "MC" "all" 0 Examples.world0
    = (Ok (NIG.RetTuple ps1), w')
    /\ NIG.NormalInverseGammaABTest.probability
      (Examples.abtest None) "MC" "all" 1 Examples.world0
    = (Ok (NIG.RetTuple ps2), w')
    /\ Forall2 (fun p1 p2 => exists q1 q2 : Qc,
                  p1 = Fin q1 /\ p2 = Fin q2 /\ q2 <= q1) ps1 ps2.
Proof.
  destruct (probability_MC_antitone_in_lift (Examples.abtest None) 0 1
              Examples.world0
              (NIG.NormalInverseGamma.mk 0 1 (Qc_of_Z 3) (Qc_of_Z 2))
              (NIG.NormalInverseGamma.mk 1 1 (Qc_of_Z 2) 1))
    as (ps1 & ps2 & w' & E1 & E2 & _ & Hle).
  - reflexivity.
  - reflexivity.
  - simpl. lia.
  - apply Qcle_refl.
  - discriminate.
  - exists ps1, ps2, w'. auto.
Defined.


